(** * Planner benchmark harness: [scripts/benchmark_comparison.py]

    A shallow embedding of the class [PlannerBenchmark]: the two planner
    adapters, the plan-length extractor and the plotting routine, followed by
    the properties the specification states about them.

    Texts are Python [str] values.  They are modelled as [string], each 8-bit
    character standing for the code point of the same number (U+0000 to
    U+00FF); on that range the character classes below are exactly the ones
    Python uses for [\s], [\d] and [str.strip]. *)

From Stdlib Require Import ZArith List String Ascii Bool Lia.
From Stdlib Require Import QArith Lqa Permutation Sorted DecimalString.
Import ListNotations.

Local Open Scope string_scope.
Local Open Scope Z_scope.

(** ** Python text primitives *)

Module Text.

(** [Py_UNICODE_ISSPACE] below U+0100: TAB, LF, VT, FF, CR, the four
    separators FS, GS, RS, US, SPACE, NEL and NO-BREAK SPACE. *)
Definition isspace (c : ascii) : bool :=
  let n := nat_of_ascii c in
  ((9 <=? n) && (n <=? 13) || (28 <=? n) && (n <=? 32)
   || (n =? 133) || (n =? 160))%nat.

(** Decimal digits (category Nd) below U+0100: ['0'] to ['9'] only. *)
Definition isdigit (c : ascii) : bool :=
  let n := nat_of_ascii c in ((48 <=? n) && (n <=? 57))%nat.

Definition digit_value (c : ascii) : Z := Z.of_nat (nat_of_ascii c) - 48.

(** [int(s)] for a run of decimal digits [s]: base ten, leading zeros
    allowed, integers of any size (the interpreter's configurable cap on
    the number of digits, [sys.set_int_max_str_digits], is left out). *)
Fixpoint int_from (acc : Z) (s : string) : Z :=
  match s with
  | EmptyString => acc
  | String c s' => int_from (10 * acc + digit_value c) s'
  end.

Definition int (s : string) : Z := int_from 0 s.

(** [str(n)] for an integer [n]. *)
Definition str (n : Z) : string := NilEmpty.string_of_int (Z.to_int n).

Definition LF : ascii := ascii_of_nat 10.

(** [s.split('\n')]: the pieces between line feeds; always at least one
    piece, and a trailing line feed gives a last empty piece. *)
Fixpoint split_lines_from (cur : string) (s : string) : list string :=
  match s with
  | EmptyString => [cur]
  | String c s' =>
      if Ascii.eqb c LF then cur :: split_lines_from "" s'
      else split_lines_from (cur ++ String c "") s'
  end.

Definition split_lines (s : string) : list string := split_lines_from "" s.

Fixpoint lstrip (s : string) : string :=
  match s with
  | String c s' => if isspace c then lstrip s' else s
  | EmptyString => EmptyString
  end.

(** [rstrip] drops the longest all-whitespace suffix. *)
Fixpoint rstrip (s : string) : string :=
  match s with
  | EmptyString => EmptyString
  | String c s' =>
      match rstrip s' with
      | EmptyString => if isspace c then EmptyString else String c EmptyString
      | r => String c r
      end
  end.

(** [s.strip()] *)
Definition strip (s : string) : string := rstrip (lstrip s).

(** [s.startswith(c)] for a one-character prefix. *)
Definition startswith (c : ascii) (s : string) : bool :=
  match s with
  | String c' _ => Ascii.eqb c' c
  | EmptyString => false
  end.

(** [c in s] for a one-character needle. *)
Fixpoint contains (c : ascii) (s : string) : bool :=
  match s with
  | EmptyString => false
  | String c' s' => Ascii.eqb c' c || contains c s'
  end.

End Text.

(** ** The fragment of [re] the extractor uses

    Literal characters, the classes [\s] and [\d], the greedy star on one
    character class, and one capturing group of the shape [(k+)].  Matching
    is the backtracking matcher of [re]: a greedy repetition first takes as
    many characters as it can and gives them back one at a time while the
    rest of the pattern fails. *)

Module Re.

Inductive charclass : Type :=
| Chr (c : ascii)      (* a literal character *)
| ClassS               (* \s *)
| ClassD.              (* \d *)

Inductive node : Type :=
| One (k : charclass)          (* k      *)
| Star (k : charclass)         (* k*     *)
| GroupPlus (k : charclass).   (* (k+)   *)

Definition pattern := list node.

Definition class_matches (k : charclass) (c : ascii) : bool :=
  match k with
  | Chr c' => Ascii.eqb c c'
  | ClassS => Text.isspace c
  | ClassD => Text.isdigit c
  end.

Fixpoint lit (s : string) : pattern :=
  match s with
  | EmptyString => []
  | String c s' => One (Chr c) :: lit s'
  end.

(** Greedy repetition of [k] in front of the continuation [cont], which
    receives the characters taken so far and the rest of the text. *)
Fixpoint repeat_greedy {R : Type} (k : charclass)
    (cont : string -> string -> option R) (taken : string) (s : string)
  : option R :=
  match s with
  | String c s' =>
      if class_matches k c then
        match repeat_greedy k cont (taken ++ String c "") s' with
        | Some r => Some r
        | None => cont taken s
        end
      else cont taken s
  | EmptyString => cont taken s
  end.

(** [match_here p g s]: match [p] at the very start of [s]; [g] is the
    text of group 1 so far.  The result is the text of group 1. *)
Fixpoint match_here (p : pattern) (g : string) (s : string) : option string :=
  match p with
  | [] => Some g
  | One k :: p' =>
      match s with
      | String c s' => if class_matches k c then match_here p' g s' else None
      | EmptyString => None
      end
  | Star k :: p' => repeat_greedy k (fun _ rest => match_here p' g rest) "" s
  | GroupPlus k :: p' =>
      match s with
      | String c s' =>
          if class_matches k c
          then repeat_greedy k (fun taken rest => match_here p' taken rest)
                             (String c "") s'
          else None
      | EmptyString => None
      end
  end.

(** [re.search(p, s)] followed by [.group(1)]: the leftmost position at
    which [p] matches wins. *)
Fixpoint search (p : pattern) (s : string) : option string :=
  match match_here p "" s with
  | Some g => Some g
  | None =>
      match s with
      | EmptyString => None
      | String _ s' => search p s'
      end
  end.

End Re.

(** ** Effects: the interpreter's world

    The methods read the clock, start external programs, print, create
    directories and save figures.  These are threaded through a state and
    exception monad over a [World]; the behaviour of external programs, the
    readings of the clock and what the file system accepts are oracles
    carried by the world. *)

Module Subprocess.

(** [subprocess.CompletedProcess] with [capture_output=True, text=True]. *)
Record CompletedProcess : Type := {
  returncode : Z;
  stdout : string;
  stderr : string
}.

(** What happens to one [subprocess.run(cmd, ..., timeout=t)]. *)
Inductive behaviour : Type :=
| Exits (p : CompletedProcess)     (* the child ended within the timeout *)
| TimesOut                         (* the child was killed at the timeout *)
| CannotStart (msg : string)       (* e.g. the executable is missing *)
| Undecodable                      (* the child ended within the timeout,
                                      but what it wrote is not text in the
                                      encoding of the locale *)
| Refused (msg : string).          (* the command line is not accepted,
                                      e.g. an argument holds a NUL *)

End Subprocess.

Module Plot.

(** A plotted ordinate: a number, or [float('inf')]. *)
Inductive yvalue : Type :=
| Finite (q : Q)
| PosInf.

(** One [plt.plot(x, ys, ..., label=...)]. *)
Record Line : Type := {
  label : string;
  xs : list nat;
  ys : list yvalue
}.

(** The figure handed to [plt.savefig]: the lines of subplot (1,2,1) and
    of subplot (1,2,2).  Axis labels, titles, legend and styling are not
    recorded. *)
Record Figure : Type := {
  runtime_panel : list Line;
  length_panel : list Line
}.

(** The order on ordinates: every number is below [float('inf')]. *)
Definition ylt (a b : yvalue) : Prop :=
  match a, b with
  | Finite x, Finite y => (x < y)%Q
  | Finite _, PosInf => True
  | PosInf, _ => False
  end.

End Plot.

Module Py.

Inductive exn : Type :=
| TimeoutExpired             (* subprocess.TimeoutExpired *)
| OSError (msg : string)     (* and its subclasses, e.g. FileNotFoundError *)
| UnicodeDecodeError
| ValueError (msg : string).

Inductive result (A : Type) : Type :=
| Returns (a : A)
| Raises (e : exn).
Arguments Returns {A} a.
Arguments Raises {A} e.

Record World : Type := {
  clock : nat -> Q;          (* the successive readings of time.time() *)
  ticks : nat;               (* how many readings were taken *)
  exec : list string -> Z -> Subprocess.behaviour;
  console : list string;     (* lines printed so far *)
  dirs : list string;        (* directories made so far *)
  files : list (string * Plot.Figure);  (* figures saved so far *)
  can_make : string -> bool; (* os.makedirs(path, exist_ok=True) succeeds *)
  can_save : string -> bool  (* a figure can be written to the path *)
}.

Definition M (A : Type) : Type := World -> result A * World.

Definition ret {A} (a : A) : M A := fun w => (Returns a, w).

Definition bind {A B} (m : M A) (k : A -> M B) : M B :=
  fun w =>
    match m w with
    | (Returns a, w') => k a w'
    | (Raises e, w') => (Raises e, w')
    end.

(** [try: body  except subprocess.TimeoutExpired: handler] *)
Definition try_except_TimeoutExpired {A} (body handler : M A) : M A :=
  fun w =>
    match body w with
    | (Raises TimeoutExpired, w') => handler w'
    | r => r
    end.

(** [for x in l: body(x)] *)
Fixpoint for_each {A} (l : list A) (body : A -> M unit) : M unit :=
  match l with
  | [] => ret tt
  | x :: l' => bind (body x) (fun _ => for_each l' body)
  end.

Definition time_time : M Q :=
  fun w => (Returns (clock w (ticks w)),
            {| clock := clock w; ticks := S (ticks w); exec := exec w;
               console := console w; dirs := dirs w; files := files w;
               can_make := can_make w; can_save := can_save w |}).

(** [subprocess.run(cmd, capture_output=True, text=True, timeout=t)] *)
Definition subprocess_run (cmd : list string) (t : Z)
  : M Subprocess.CompletedProcess :=
  fun w =>
    match exec w cmd t with
    | Subprocess.Exits p => (Returns p, w)
    | Subprocess.TimesOut => (Raises TimeoutExpired, w)
    | Subprocess.CannotStart msg => (Raises (OSError msg), w)
    | Subprocess.Undecodable => (Raises UnicodeDecodeError, w)
    | Subprocess.Refused msg => (Raises (ValueError msg), w)
    end.

Definition print (line : string) : M unit :=
  fun w => (Returns tt,
            {| clock := clock w; ticks := ticks w; exec := exec w;
               console := console w ++ [line]; dirs := dirs w;
               files := files w;
               can_make := can_make w; can_save := can_save w |}).

(** [os.makedirs(path, exist_ok=True)]: an [OSError] when the directory
    cannot be made (a file is in the way, no permission). *)
Definition os_makedirs (path : string) : M unit :=
  fun w =>
    if can_make w path
    then (Returns tt,
          {| clock := clock w; ticks := ticks w; exec := exec w;
             console := console w; dirs := dirs w ++ [path];
             files := files w;
             can_make := can_make w; can_save := can_save w |})
    else (Raises (OSError path), w).

(** [plt.savefig(path, ...)] of the current figure: an [OSError] when the
    file cannot be written, as [FileNotFoundError] when the path names a
    directory that does not exist. *)
Definition plt_savefig (path : string) (fig : Plot.Figure) : M unit :=
  fun w =>
    if can_save w path
    then (Returns tt,
          {| clock := clock w; ticks := ticks w; exec := exec w;
             console := console w; dirs := dirs w;
             files := files w ++ [(path, fig)];
             can_make := can_make w; can_save := can_save w |})
    else (Raises (OSError path), w).

End Py.

Declare Scope py_scope.
Delimit Scope py_scope with py.
Notation "x <- m ;; k" := (Py.bind m (fun x => k))
  (at level 61, m at next level, right associativity) : py_scope.
Notation "m ;;; k" := (Py.bind m (fun _ => k))
  (at level 61, right associativity) : py_scope.

(** ** Sorting a column: [numpy.argsort] and [DataFrame.sort_values]

    [domain_df.sort_values('hsp_runtime')] asks for no [kind], so pandas
    sorts with [kind='quicksort']: it takes the column as an array of
    64-bit floating-point keys, has [numpy.argsort] find the indices that
    put the keys in ascending order, and takes the rows in the order of
    these indices.  The keys are finite numbers here, modelled as [Q].

    On x86 processors with vector instructions numpy's argsort of kind
    'quicksort' is the vectorised sort of x86-simd-sort.  An array of up to
    four keys is sorted in one vector register by the bitonic network
    embedded below; this part decides the order of records with equal
    keys in a small domain.  Longer arrays go through wider networks and a
    vectorised partition that are not embedded: [argsort_long] is a
    parameter.  (A numpy built without these kernels sorts short arrays by
    insertion instead; that build is not the one embedded.) *)

Module Numpy.

(** One lane of the register: a key with the index it was loaded from, or
    the padding of a lane past the end of the array, which holds
    +infinity. *)
Definition lane : Type := option (Q * nat).

(** [above a b]: the key of [a] is greater than the key of [b]. *)
Definition above (a b : lane) : bool :=
  match a, b with
  | Some (x, _), Some (y, _) => negb (Qle_bool x y)
  | None, Some _ => true
  | _, None => false
  end.

(** The compare-exchange of two lanes: the lower key goes first, each key
    with its index; lanes with equal keys stay as they are. *)
Definition cmp_merge (a b : lane) : lane * lane :=
  if above a b then (b, a) else (a, b).

Definition register : Type := (lane * lane * lane * lane)%type.

(** The network: neighbours, then the outer and the inner pair, then
    neighbours again. *)
Definition sort_register (r : register) : register :=
  let '(a, b, c, d) := r in
  let (a, b) := cmp_merge a b in
  let (c, d) := cmp_merge c d in
  let (a, d) := cmp_merge a d in
  let (b, c) := cmp_merge b c in
  let (a, b) := cmp_merge a b in
  let (c, d) := cmp_merge c d in
  (a, b, c, d).

(** The keys with their indices 0, 1, ... in the first lanes, padding in
    the others. *)
Definition load (keys : list Q) : register :=
  let l := map (@Some (Q * nat)) (combine keys (seq 0 (List.length keys))) in
  (nth 0 l None, nth 1 l None, nth 2 l None, nth 3 l None).

(** The indices of the first [n] lanes (no padding is among them: it never
    leaves the last lanes). *)
Definition store (n : nat) (r : register) : list nat :=
  let '(a, b, c, d) := r in
  flat_map (fun x : lane => match x with Some (_, i) => [i] | None => [] end)
           (firstn n [a; b; c; d]).

Section Argsort.

Variable argsort_long : list Q -> list nat.

(** [keys.argsort(kind='quicksort')] *)
Definition argsort (keys : list Q) : list nat :=
  if (List.length keys <=? 4)%nat
  then store (List.length keys) (sort_register (load keys))
  else argsort_long keys.

End Argsort.

End Numpy.

Module DataFrame.

Section SortValues.

Variable argsort_long : list Q -> list nat.

Context {A : Type}.

(** [df.take(indexer)]: the rows at the positions [indexer] lists. *)
Definition take (indexer : list nat) (df : list A) : list A :=
  flat_map (fun i => match nth_error df i with
                     | Some r => [r]
                     | None => []
                     end) indexer.

(** [df.sort_values(column)], with the defaults [ascending=True] and
    [kind='quicksort']. *)
Definition sort_values (column : A -> Q) (df : list A) : list A :=
  take (Numpy.argsort argsort_long (map column df)) df.

End SortValues.

End DataFrame.

(** ** The class [PlannerBenchmark] *)

Module PlannerBenchmark.

Import Re.

(** One entry of [self.results], with the columns [generate_plots] reads
    ([problem] is carried along and never read). *)
Record Row : Type := {
  domain : string;
  problem : string;
  hsp_runtime : Q;
  mcts_runtime : Q;
  hsp_plan_length : Z;
  mcts_plan_length : Z
}.

(** [self] *)
Record instance : Type := {
  pddl4j_path : string;
  timeout : Z;
  results : list Row
}.

(** A keyword argument with a default value. *)
Definition or_default (o : option Z) (d : Z) : Z :=
  match o with Some n => n | None => d end.

(** [__init__(self, pddl4j_path, timeout=300)] *)
Definition init (pddl4j_path : string) (timeout : option Z) : instance :=
  {| pddl4j_path := pddl4j_path;
     timeout := or_default timeout 300;
     results := [] |}.

(** The dictionary the adapters return. *)
Record RunOutcome : Type := {
  success : bool;
  runtime : Q;
  plan_length : Z;
  stdout : string;
  stderr : string
}.

(** *** [extract_plan_length] *)

Definition patterns : list pattern :=
  [ (lit "Plan length:" ++ [Star ClassS; GroupPlus ClassD])%list
            (* r'Plan length:\s*(\d+)' *)
  ; (lit "Solution found with " ++ [GroupPlus ClassD] ++ lit " actions")%list
            (* r'Solution found with (\d+) actions' *)
  ; ([GroupPlus ClassD] ++ lit " actions in the plan")%list
            (* r'(\d+) actions in the plan' *)
  ; (lit "Steps:" ++ [Star ClassS; GroupPlus ClassD])%list
            (* r'Steps:\s*(\d+)' *)
  ].

(** The [for pattern in patterns] loop: the first pattern that matches
    returns. *)
Fixpoint first_match (ps : list pattern) (output : string) : option Z :=
  match ps with
  | [] => None
  | p :: ps' =>
      match search p output with
      | Some g => Some (Text.int g)
      | None => first_match ps' output
      end
  end.

(** [line.strip().startswith('(') and ')' in line] *)
Definition is_action_line (line : string) : bool :=
  Text.startswith "(" (Text.strip line) && Text.contains ")" line.

Definition action_count (output : string) : nat :=
  List.length (filter is_action_line (Text.split_lines output)).

Definition extract_plan_length (output : string) : Z :=
  match first_match patterns output with
  | Some n => n
  | None =>
      let action_count := Z.of_nat (action_count output) in
      if action_count >? 0 then action_count else -1
  end.

(** *** The planner adapters *)

Local Open Scope py_scope.

Definition hsp_cmd (self : instance) (domain_file problem_file : string)
  : list string :=
  [ "java"; "-cp"; pddl4j_path self;
    "fr.uga.pddl4j.planners.statespace.HSP";
    "-d"; domain_file;
    "-p"; problem_file;
    "-t"; Text.str (timeout self) ].

Definition mcts_cmd (self : instance) (domain_file problem_file : string)
    (walks length : Z) : list string :=
  [ "java"; "-cp"; pddl4j_path self ++ ":target/classes";
    "fr.uga.pddl4j.planners.mcts.MCTSPlanner";
    "-d"; domain_file;
    "-p"; problem_file;
    "-t"; Text.str (timeout self);
    "-w"; Text.str walks;
    "-l"; Text.str length ].

Definition timeout_outcome (self : instance) : RunOutcome :=
  {| success := false;
     runtime := inject_Z (timeout self);
     plan_length := -1;
     stdout := "";
     stderr := "Timeout" |}.

Definition run_hsp_planner (self : instance) (domain_file problem_file : string)
  : Py.M RunOutcome :=
  let cmd := hsp_cmd self domain_file problem_file in
  start_time <- Py.time_time ;;
  Py.try_except_TimeoutExpired
    (result <- Py.subprocess_run cmd (timeout self) ;;
     end_time <- Py.time_time ;;
     let runtime := (end_time - start_time)%Q in
     let plan_length := extract_plan_length (Subprocess.stdout result) in
     let success :=
       (Subprocess.returncode result =? 0) && (plan_length >? 0) in
     Py.ret {| success := success;
               runtime := runtime;
               plan_length := plan_length;
               stdout := Subprocess.stdout result;
               stderr := Subprocess.stderr result |})
    (Py.ret (timeout_outcome self)).

(** [walks] and [length] default to 1000 and 100. *)
Definition run_mcts_planner (self : instance) (domain_file problem_file : string)
    (walks length : option Z) : Py.M RunOutcome :=
  let walks := or_default walks 1000 in
  let length := or_default length 100 in
  let cmd := mcts_cmd self domain_file problem_file walks length in
  start_time <- Py.time_time ;;
  Py.try_except_TimeoutExpired
    (result <- Py.subprocess_run cmd (timeout self) ;;
     end_time <- Py.time_time ;;
     let runtime := (end_time - start_time)%Q in
     let plan_length := extract_plan_length (Subprocess.stdout result) in
     let success :=
       (Subprocess.returncode result =? 0) && (plan_length >? 0) in
     Py.ret {| success := success;
               runtime := runtime;
               plan_length := plan_length;
               stdout := Subprocess.stdout result;
               stderr := Subprocess.stderr result |})
    (Py.ret (timeout_outcome self)).

(** *** [generate_plots] *)

(** [df[col].unique()]: the distinct values in order of first appearance. *)
Fixpoint unique (l : list string) : list string :=
  match l with
  | [] => []
  | x :: l' => x :: filter (fun y => negb (String.eqb y x)) (unique l')
  end.

(** [l if l > 0 else float('inf')] *)
Definition length_or_inf (l : Z) : Plot.yvalue :=
  if l >? 0 then Plot.Finite (inject_Z l) else Plot.PosInf.

(** The figure drawn from the sorted rows of one domain. *)
Definition draw (domain_df : list Row) : Plot.Figure :=
  let x := seq 0 (List.length domain_df) in
  let hsp_lengths := map length_or_inf (map hsp_plan_length domain_df) in
  let mcts_lengths := map length_or_inf (map mcts_plan_length domain_df) in
  {| Plot.runtime_panel :=
       [ {| Plot.label := "HSP"; Plot.xs := x;
            Plot.ys := map Plot.Finite (map hsp_runtime domain_df) |}
       ; {| Plot.label := "MCTS"; Plot.xs := x;
            Plot.ys := map Plot.Finite (map mcts_runtime domain_df) |} ];
     Plot.length_panel :=
       [ {| Plot.label := "HSP"; Plot.xs := x; Plot.ys := hsp_lengths |}
       ; {| Plot.label := "MCTS"; Plot.xs := x; Plot.ys := mcts_lengths |} ]
  |}.

Section GeneratePlots.

(** What numpy's argsort does with an array of more than four keys. *)
Variable argsort_long : list Q -> list nat.

(** [df[df['domain'] == domain].copy().sort_values('hsp_runtime')] *)
Definition domain_rows (df : list Row) (d : string) : list Row :=
  DataFrame.sort_values argsort_long hsp_runtime
    (filter (fun r => String.eqb (domain r) d) df).

Definition figure_path (d : string) : string :=
  "results/figures/" ++ d ++ "_comparison.png".

Definition generate_plots (self : instance) : Py.M unit :=
  match results self with
  | [] => Py.print "No results to plot"
  | _ =>
      let df := results self in
      let domains := unique (map domain df) in
      Py.os_makedirs "results/figures" ;;;
      Py.for_each domains (fun d =>
        let domain_df := domain_rows df d in
        Py.plt_savefig (figure_path d) (draw domain_df))
  end.

End GeneratePlots.

End PlannerBenchmark.

Import PlannerBenchmark.

(** * The vocabulary of the specification

    The notions the properties are stated with: none of them is code of the
    harness. *)

Module Spec.

Import Text Re.

(** *** Texts *)

(** [sub] occurs somewhere in [s]. *)
Definition occurs_in (sub s : string) : Prop :=
  exists pre post, s = pre ++ sub ++ post.

(** Every character of [s] satisfies [f]. *)
Fixpoint all_chars (f : ascii -> bool) (s : string) : bool :=
  match s with
  | EmptyString => true
  | String c s' => f c && all_chars f s'
  end.

(** [s] is empty or begins with a character outside [f]. *)
Definition stops (f : ascii -> bool) (s : string) : bool :=
  match s with
  | EmptyString => true
  | String c _ => negb (f c)
  end.

(** *** Patterns *)

(** The text of a group [(k+)] consists of characters of [k]. *)
Definition groups_are (k : charclass) (p : pattern) : Prop :=
  Forall (fun n => match n with GroupPlus k' => k' = k | _ => True end) p.

(** The patterns that report a number after a keyword: [L\s*(\d+)]. *)
Definition report (L : string) : pattern :=
  (lit L ++ [Star ClassS; GroupPlus ClassD])%list.

(** *** The extractor *)

(** What an action line is, in the specification's words: a line that,
    once surrounding whitespace is trimmed, begins with an opening
    parenthesis, and that has a closing parenthesis somewhere. *)
Definition looks_like_action (line : string) : Prop :=
  (exists ws rest,
      line = ws ++ String "(" rest /\ all_chars isspace ws = true)
  /\ occurs_in ")" line.

(** The pieces [ls] put together again, one line feed between neighbours. *)
Fixpoint join_lines (ls : list string) : string :=
  match ls with
  | [] => ""
  | [l] => l
  | l :: ls' => l ++ String LF (join_lines ls')
  end.

(** [count_of P l n]: exactly [n] entries of [l] satisfy [P]. *)
Inductive count_of {A : Type} (P : A -> Prop) : list A -> nat -> Prop :=
| count_nil : count_of P [] 0
| count_yes x l n : P x -> count_of P l n -> count_of P (x :: l) (S n)
| count_no x l n : ~ P x -> count_of P l n -> count_of P (x :: l) n.

(** C4, as stated: every text in which "Plan length: 7" occurs yields 7. *)
Definition plan_length_7_anywhere : Prop :=
  forall output, occurs_in "Plan length: 7" output ->
    extract_plan_length output = 7.

(** *** The adapters *)

(** [adapter_call self cmd run]: [run] is a call of one of the two
    adapters on [self], and [cmd] is the command line it starts. *)
Inductive adapter_call (self : instance)
  : list string -> Py.M RunOutcome -> Prop :=
| call_hsp domain_file problem_file :
    adapter_call self (hsp_cmd self domain_file problem_file)
                 (run_hsp_planner self domain_file problem_file)
| call_mcts domain_file problem_file walks length :
    adapter_call self
      (mcts_cmd self domain_file problem_file
                (or_default walks 1000) (or_default length 100))
      (run_mcts_planner self domain_file problem_file walks length).

(** The world after one reading of the clock. *)
Definition tick (w : Py.World) : Py.World := snd (Py.time_time w).

(** A world whose clock reads [t0], [t0 + 1], ... and in which every
    external program behaves as [b]. *)
Definition world_where (b : Subprocess.behaviour) : Py.World :=
  {| Py.clock := fun n => inject_Z (Z.of_nat n);
     Py.ticks := 0;
     Py.exec := fun _ _ => b;
     Py.console := [];
     Py.dirs := [];
     Py.files := [];
     Py.can_make := fun _ => true;
     Py.can_save := fun _ => true |}.

(** The first half of C2: on a normal exit the adapter returns an outcome
    that is successful exactly when the exit status is 0 and the extracted
    plan length is positive. *)
Definition success_iff_exit_0_and_plan : Prop :=
  forall self cmd run w p,
    adapter_call self cmd run ->
    Py.exec w cmd (timeout self) = Subprocess.Exits p ->
    exists out,
      fst (run w) = Py.Returns out
      /\ plan_length out = extract_plan_length (Subprocess.stdout p)
      /\ (success out = true <->
          Subprocess.returncode p = 0 /\ 0 < plan_length out).

(** The second half of C2, as stated: exit status 0 and an output in which
    "Steps: 5" occurs and no earlier pattern matches give success and plan
    length 5. *)
Definition steps_5_anywhere : Prop :=
  forall self cmd run w p,
    adapter_call self cmd run ->
    Py.exec w cmd (timeout self) = Subprocess.Exits p ->
    Subprocess.returncode p = 0 ->
    occurs_in "Steps: 5" (Subprocess.stdout p) ->
    (forall j q, (j < 3)%nat -> nth_error patterns j = Some q ->
       search q (Subprocess.stdout p) = None) ->
    exists out,
      fst (run w) = Py.Returns out
      /\ success out = true /\ plan_length out = 5.

(** *** The plots *)

(** Ascending HSP runtime. *)
Definition by_hsp_runtime (a b : Row) : Prop :=
  (hsp_runtime a <= hsp_runtime b)%Q.

(** A sort of rows by HSP runtime: the rows come back rearranged, in
    ascending order of the column. *)
Record sorts_by_hsp_runtime (sort : list Row -> list Row) : Prop := {
  sort_perm : forall l, Permutation l (sort l);
  sort_ascending : forall l, StronglySorted by_hsp_runtime (sort l)
}.

(** The key at a position of an array. *)
Definition key_at (keys : list Q) (i : nat) : Q := nth i keys 0%Q.

(** An argsort of [keys]: the positions 0, 1, ... rearranged so that the
    keys they name ascend. *)
Definition is_argsort (keys : list Q) (indexer : list nat) : Prop :=
  Permutation indexer (seq 0 (List.length keys))
  /\ StronglySorted Qle (map (key_at keys) indexer).

(** What is assumed of numpy's argsort on an array of more than four keys:
    that it is an argsort.  Nothing is assumed of the order it gives to
    equal keys. *)
Definition sorts_long_arrays (argsort_long : list Q -> list nat) : Prop :=
  forall keys, (4 < List.length keys)%nat -> is_argsort keys (argsort_long keys).

(** An argsort by insertion, used where an instance is needed. *)
Fixpoint insert_index (keys : list Q) (i : nat) (l : list nat) : list nat :=
  match l with
  | [] => [i]
  | j :: l' =>
      if Qle_bool (key_at keys i) (key_at keys j)
      then i :: l else j :: insert_index keys i l'
  end.

Definition insertion_argsort (keys : list Q) : list nat :=
  fold_right (insert_index keys) [] (seq 0 (List.length keys)).

(** [idx] holds every position below [n] and has at most [n] entries. *)
Definition covers (idx : list nat) (n : nat) : bool :=
  forallb (fun i => existsb (Nat.eqb i) idx) (seq 0 n)
  && (List.length idx <=? n)%nat.

(** The rows of one domain, in the order of [self.results]. *)
Definition rows_of (df : list Row) (d : string) : list Row :=
  filter (fun r => String.eqb (domain r) d) df.

(** The rows with HSP runtime [q]. *)
Definition tied_at (q : Q) (l : list Row) : list Row :=
  filter (fun r => Qeq_bool (hsp_runtime r) q) l.

(** Insertion sort, by a test [before r x] that says whether the row [r]
    being inserted goes in front of [x]. *)
Fixpoint insert (before : Row -> Row -> bool) (r : Row) (l : list Row)
  : list Row :=
  match l with
  | [] => [r]
  | x :: l' => if before r x then r :: l else x :: insert before r l'
  end.

Definition insertion_sort (before : Row -> Row -> bool) (l : list Row)
  : list Row :=
  fold_right (insert before) [] l.

(** A row goes in front of the rows that are not faster: ties keep their
    order. *)
Definition stable_sort : list Row -> list Row :=
  insertion_sort (fun r x => Qle_bool (hsp_runtime r) (hsp_runtime x)).



(** Three records of one domain, with HSP runtimes 5, 1 and 3. *)
Definition blocksworld_row (p : string) (hsp mcts : Q) : Row :=
  {| domain := "blocksworld"; problem := p;
     hsp_runtime := hsp; mcts_runtime := mcts;
     hsp_plan_length := 4; mcts_plan_length := -1 |}.

Definition three_records : instance :=
  {| pddl4j_path := "pddl4j.jar"; timeout := 300;
     results := [ blocksworld_row "p01" 5 2; blocksworld_row "p02" 1 7;
                  blocksworld_row "p03" 3 4 ] |}.

(** Four records of one domain: the first two take 1 second with HSP, the
    last two take none. *)
Definition four_records : instance :=
  {| pddl4j_path := "pddl4j.jar"; timeout := 300;
     results := [ blocksworld_row "p01" 1 2; blocksworld_row "p02" 1 7;
                  blocksworld_row "p03" 0 4; blocksworld_row "p04" 0 9 ] |}.

(** A world with nothing printed and nothing saved, in which every
    directory can be made and every figure saved. *)
Definition quiet_world : Py.World :=
  {| Py.clock := fun n => inject_Z (Z.of_nat n);
     Py.ticks := 0;
     Py.exec := fun _ _ => Subprocess.TimesOut;
     Py.console := [];
     Py.dirs := [];
     Py.files := [];
     Py.can_make := fun _ => true;
     Py.can_save := fun _ => true |}.


(** The domains whose figures get saved: those that come before the first
    whose path cannot be written. *)
Fixpoint saved_before_failure (ok : string -> bool) (ds : list string)
  : list string :=
  match ds with
  | [] => []
  | d :: ds' =>
      if ok (figure_path d) then d :: saved_before_failure ok ds' else []
  end.

(** What one record shows in its figure: its two runtimes in the first
    panel and its two plan lengths, or infinity, in the second. *)
Definition point : Type :=
  (Plot.yvalue * Plot.yvalue * Plot.yvalue * Plot.yvalue)%type.

Definition point_of (r : Row) : point :=
  (Plot.Finite (hsp_runtime r), Plot.Finite (mcts_runtime r),
   length_or_inf (hsp_plan_length r), length_or_inf (mcts_plan_length r)).

(** The points of a figure: what its four lines show at each abscissa. *)
Definition points (fig : Plot.Figure) : list point :=
  match Plot.runtime_panel fig, Plot.length_panel fig with
  | [hsp; mcts], [hsp_length; mcts_length] =>
      map (fun p => match p with ((a, b), (c, d)) => (a, b, c, d) end)
          (combine (combine (Plot.ys hsp) (Plot.ys mcts))
                   (combine (Plot.ys hsp_length) (Plot.ys mcts_length)))
  | _, _ => []
  end.

End Spec.

Import Spec.

(** * The rest of the script: [save_results] and [main]

    [save_results] writes a text file, which the world of the adapters and
    of the plots does not hold; the script runs over that world and a
    [Disk]. *)

Module Args.

(** The namespace [parser.parse_args()] returns.  Parsing the command line
    is [argparse]'s work; [main] is modelled from the parsed arguments on. *)
Record Namespace : Type := {
  pddl4j_path : string;     (* --pddl4j-path, required *)
  domains_path : string;    (* --domains-path, default 'pddl' *)
  timeout : Z               (* --timeout, type=int, default 300 *)
}.

End Args.

Module Script.

(** The text files: which names [open(name, 'w')] accepts, and what was
    written, oldest first. *)
Record Disk : Type := {
  writable : string -> bool;
  written : list (string * string)
}.

Definition State : Type := (Py.World * Disk)%type.

Definition M (A : Type) : Type := State -> Py.result A * State.

Definition bind {A B} (m : M A) (k : A -> M B) : M B :=
  fun st =>
    match m st with
    | (Py.Returns a, st') => k a st'
    | (Py.Raises e, st') => (Py.Raises e, st')
    end.

(** An action on the world alone. *)
Definition lift {A} (m : Py.M A) : M A :=
  fun st =>
    match m (fst st) with
    | (r, w') => (r, (w', snd st))
    end.

(** [with open(filename, 'w') as f: f.write(text)] *)
Definition write_text (filename text : string) : M unit :=
  fun st =>
    if writable (snd st) filename
    then (Py.Returns tt,
          (fst st,
           {| writable := writable (snd st);
              written := written (snd st) ++ [(filename, text)] |}))
    else (Py.Raises (Py.OSError filename), st).

Section Script.

(** [argsort_long] as in [generate_plots]. *)
Variable argsort_long : list Q -> list nat.

(** How [json.dump] renders one entry of [self.results], a dictionary one
    level deep in the list, with [indent=2]: it holds the decimal form of
    floating-point numbers and is a parameter. *)
Variable json_entry : Row -> string.

(** [json.dump(l, f, indent=2)] for a list [l]: ["[]"] when it is empty,
    else one entry per item, each after a line feed and two spaces, a comma
    after all but the last, and the closing bracket on a line of its own. *)
Definition json_dump (l : list Row) : string :=
  match l with
  | [] => "[]"
  | r :: l' =>
      "[" ++ String Text.LF "  " ++ json_entry r
      ++ String.concat ""
           (map (fun r' => "," ++ String Text.LF "  " ++ json_entry r') l')
      ++ String Text.LF "]"
  end.

(** [filename] defaults to ["benchmark_results.json"]. *)
Definition save_results (self : instance) (filename : option string)
  : M unit :=
  let filename :=
    match filename with Some f => f | None => "benchmark_results.json" end in
  bind (write_text filename (json_dump (results self))) (fun _ =>
  lift (Py.print ("Results saved to " ++ filename))).

Definition main (args : Args.Namespace) : M unit :=
  let benchmark :=
    init (Args.pddl4j_path args) (Some (Args.timeout args)) in
  bind (save_results benchmark None) (fun _ =>
  bind (lift (generate_plots argsort_long benchmark)) (fun _ =>
  lift (Py.print "Benchmark completed!"))).

End Script.

End Script.

(** * Further vocabulary *)

Module Notions.

Import Text.

(** The last character of [s] satisfies [f]. *)
Fixpoint ends_with (f : ascii -> bool) (s : string) : bool :=
  match s with
  | EmptyString => false
  | String c EmptyString => f c
  | String _ s' => ends_with f s'
  end.

(** How many times [c] occurs in [s]. *)
Fixpoint count_char (c : ascii) (s : string) : nat :=
  match s with
  | EmptyString => 0
  | String c' s' => (if Ascii.eqb c' c then 1 else 0) + count_char c s'
  end.

(** The patterns that report a number between a keyword and a suffix:
    [L(\d+)M]. *)
Definition phrase (L M : string) : Re.pattern :=
  (Re.lit L ++ [Re.GroupPlus Re.ClassD] ++ Re.lit M)%list.

(** A plotted line over [n] problems: abscissas 0 to [n - 1], and [n]
    ordinates. *)
Definition line_over (n : nat) (line : Plot.Line) : Prop :=
  Plot.xs line = seq 0 n /\ List.length (Plot.ys line) = n.

(** A world whose clock reads 10, then 9, ...: it steps back.  Every
    external program exits with status 0 and prints "Steps: 2". *)
Definition clock_steps_back : Py.World :=
  {| Py.clock := fun n => inject_Z (10 - Z.of_nat n);
     Py.ticks := 0;
     Py.exec := fun _ _ =>
       Subprocess.Exits {| Subprocess.returncode := 0;
                           Subprocess.stdout := "Steps: 2";
                           Subprocess.stderr := "" |};
     Py.console := [];
     Py.dirs := [];
     Py.files := [];
     Py.can_make := fun _ => true;
     Py.can_save := fun _ => true |}.

(** A disk on which every name can be written and nothing was. *)
Definition blank_disk : Script.Disk :=
  {| Script.writable := fun _ => true; Script.written := [] |}.

(** A disk on which no name can be written. *)
Definition locked_disk : Script.Disk :=
  {| Script.writable := fun _ => false; Script.written := [] |}.

End Notions.


(** * Properties *)

(** ** Facts about texts *)

Module TextFacts.

Import Text.

Lemma append_nil_r (s : string) : s ++ "" = s.
Proof. induction s as [|c s IH]; simpl; [reflexivity | now rewrite IH]. Qed.

Lemma append_assoc (a b c : string) : (a ++ b) ++ c = a ++ (b ++ c).
Proof. induction a as [|x a IH]; simpl; [reflexivity | now rewrite IH]. Qed.

Lemma all_chars_app f a b :
  all_chars f (a ++ b) = all_chars f a && all_chars f b.
Proof.
  induction a as [|c a IH]; simpl; [reflexivity|].
  now rewrite IH, andb_assoc.
Qed.

Lemma digit_value_nonneg c : isdigit c = true -> 0 <= digit_value c.
Proof.
  unfold isdigit, digit_value. intros H.
  apply andb_true_iff in H. destruct H as [H _].
  apply Nat.leb_le in H. lia.
Qed.

Lemma int_from_nonneg s : forall acc,
  0 <= acc -> all_chars isdigit s = true -> 0 <= int_from acc s.
Proof.
  induction s as [|c s IH]; cbn [int_from all_chars]; intros acc Hacc Hs;
    [exact Hacc|].
  apply andb_true_iff in Hs. destruct Hs as [Hc Hs].
  apply IH; [|exact Hs]. pose proof (digit_value_nonneg c Hc). lia.
Qed.

Lemma int_nonneg s : all_chars isdigit s = true -> 0 <= int s.
Proof. apply int_from_nonneg. lia. Qed.

End TextFacts.

(** ** Facts about the matcher *)

Module ReFacts.

Import Re TextFacts.

(** When every start position inside [pre] fails, the search moves on to
    what follows [pre]. *)
Lemma search_skip p s : forall pre,
  (forall pre1 pre2, pre = pre1 ++ pre2 -> pre2 <> "" ->
     match_here p "" (pre2 ++ s) = None) ->
  search p (pre ++ s) = search p s.
Proof.
  induction pre as [|c pre IH]; intros H; [reflexivity|].
  simpl append. unfold search; fold search.
  assert (H0 : match_here p "" (String c pre ++ s) = None)
    by (apply (H "" (String c pre)); [reflexivity | discriminate]).
  simpl append in H0. rewrite H0.
  apply IH. intros pre1 pre2 E N.
  apply (H (String c pre1) pre2); [simpl; now rewrite E | exact N].
Qed.

(** No match in a text means no match at the start of any of its
    suffixes. *)
Lemma search_none_suffix p : forall pre1 pre2,
  search p (pre1 ++ pre2) = None -> match_here p "" pre2 = None.
Proof.
  induction pre1 as [|c pre1 IH]; intros pre2 H.
  - simpl in H. destruct pre2; simpl in H;
      destruct (match_here p "" _); congruence.
  - simpl append in H. unfold search in H; fold search in H.
    destruct (match_here p "" (String c (pre1 ++ pre2))); [discriminate|].
    now apply IH.
Qed.

Lemma search_here p s g : match_here p "" s = Some g -> search p s = Some g.
Proof. intros H. destruct s; simpl; now rewrite H. Qed.

(** A greedy run whose continuation always succeeds stops at the first
    character outside the class. *)
Lemma repeat_greedy_run {R} k (cont : string -> string -> option R) :
  (forall taken rest, cont taken rest <> None) ->
  forall run taken rest,
    all_chars (class_matches k) run = true ->
    stops (class_matches k) rest = true ->
    repeat_greedy k cont taken (run ++ rest) = cont (taken ++ run) rest.
Proof.
  intros Hc. induction run as [|c run IH]; intros taken rest Hrun Hrest.
  - simpl. rewrite append_nil_r.
    destruct rest as [|c rest]; [reflexivity|].
    simpl in *. apply negb_true_iff in Hrest. now rewrite Hrest.
  - simpl in Hrun. apply andb_true_iff in Hrun. destruct Hrun as [Hk Hrun].
    simpl. rewrite Hk. rewrite IH by assumption.
    rewrite append_assoc. simpl.
    destruct (cont (taken ++ String c run) rest) eqn:E; [reflexivity|].
    now apply Hc in E.
Qed.

Lemma repeat_greedy_inv {R} k (cont : string -> string -> option R)
    (Q : R -> Prop) :
  (forall taken rest r, all_chars (class_matches k) taken = true ->
     cont taken rest = Some r -> Q r) ->
  forall s taken r, all_chars (class_matches k) taken = true ->
    repeat_greedy k cont taken s = Some r -> Q r.
Proof.
  intros Hc. induction s as [|c s IH]; intros taken r Ht H; simpl in H.
  - eapply Hc; eassumption.
  - destruct (class_matches k c) eqn:Ek; [|eapply Hc; eassumption].
    destruct (repeat_greedy k cont (taken ++ String c "") s) eqn:E.
    + injection H as <-. eapply IH; [|exact E].
      rewrite all_chars_app. simpl. now rewrite Ht, Ek.
    + eapply Hc; eassumption.
Qed.

Lemma match_here_group k p : groups_are k p ->
  forall s g r, all_chars (class_matches k) g = true ->
    match_here p g s = Some r -> all_chars (class_matches k) r = true.
Proof.
  induction 1 as [|n p Hn Hp IH]; intros s g r Hg H; simpl in H.
  - now injection H as <-.
  - destruct n as [k'|k'|k'].
    + destruct s as [|c s]; [discriminate|].
      destruct (class_matches k' c); [|discriminate]. eapply IH; eassumption.
    + revert H.
      apply (repeat_greedy_inv k' _
               (fun r => all_chars (class_matches k) r = true)
               (fun t rest r _ (E : match_here p g rest = Some r) =>
                  IH rest g r Hg E)).
      reflexivity.
    + subst k'. destruct s as [|c s]; [discriminate|].
      destruct (class_matches k c) eqn:Ek; [|discriminate].
      revert H.
      apply (repeat_greedy_inv k _
               (fun r => all_chars (class_matches k) r = true)
               (fun t rest r Ht (E : match_here p t rest = Some r) =>
                  IH rest t r Ht E)).
      simpl. now rewrite Ek.
Qed.

Lemma search_group k p : groups_are k p ->
  forall s r, search p s = Some r -> all_chars (class_matches k) r = true.
Proof.
  intros Hp. induction s as [|c s IH]; intros r H; simpl in H.
  - destruct (match_here p "" "") eqn:E; [|discriminate].
    injection H as <-. eapply match_here_group; [exact Hp| |exact E].
    reflexivity.
  - destruct (match_here p "" (String c s)) eqn:E.
    + injection H as <-. eapply match_here_group; [exact Hp| |exact E].
      reflexivity.
    + now apply IH.
Qed.

Lemma match_here_lit L p g : forall s,
  match_here (lit L ++ p)%list g (L ++ s) = match_here p g s.
Proof.
  induction L as [|c L IH]; intros s; [reflexivity|].
  simpl. now rewrite Ascii.eqb_refl.
Qed.

(** A greedy run followed by a character outside the class: the longest
    run is tried first, and kept when the continuation accepts it. *)
Lemma repeat_greedy_stop {R} k (cont : string -> string -> option R) :
  forall run taken rest r,
    all_chars (class_matches k) run = true ->
    stops (class_matches k) rest = true ->
    cont (taken ++ run) rest = Some r ->
    repeat_greedy k cont taken (run ++ rest) = Some r.
Proof.
  induction run as [|c run IH]; intros taken rest r Hrun Hrest Hc.
  - rewrite append_nil_r in Hc. simpl.
    destruct rest as [|c rest]; [exact Hc|].
    simpl in Hrest. apply negb_true_iff in Hrest.
    simpl. now rewrite Hrest.
  - simpl in Hrun. apply andb_true_iff in Hrun. destruct Hrun as [Hk Hrun].
    simpl. rewrite Hk.
    rewrite (IH (taken ++ String c "") rest r); auto.
    now rewrite append_assoc.
Qed.

Lemma repeat_greedy_total {R} k (cont : string -> string -> option R) :
  (forall taken rest, cont taken rest <> None) ->
  forall s taken, repeat_greedy k cont taken s <> None.
Proof.
  intros Hc. induction s as [|c s IH]; intros taken; simpl; [apply Hc|].
  destruct (class_matches k c); [|apply Hc].
  destruct (repeat_greedy k cont (taken ++ String c "") s) eqn:E;
    [discriminate | now apply IH in E].
Qed.

Lemma space_not_digit c : Text.isspace c = true -> Text.isdigit c = false.
Proof.
  unfold Text.isspace, Text.isdigit. intros H.
  apply andb_false_iff.
  destruct (Nat.leb_spec 48 (nat_of_ascii c)) as [L|L]; [right | now left].
  destruct (Nat.leb_spec (nat_of_ascii c) 57) as [U|U]; [|reflexivity].
  exfalso. revert H.
  repeat rewrite orb_true_iff. repeat rewrite andb_true_iff.
  repeat rewrite Nat.leb_le. repeat rewrite Nat.eqb_eq. lia.
Qed.

Lemma digits_here g ds post :
  all_chars Text.isdigit ds = true -> ds <> "" ->
  stops Text.isdigit post = true ->
  match_here [GroupPlus ClassD] g (ds ++ post) = Some ds.
Proof.
  intros Hds Hne Hpost. destruct ds as [|d ds]; [congruence|].
  simpl in Hds. apply andb_true_iff in Hds. destruct Hds as [Hd Hds].
  simpl. rewrite Hd.
  now rewrite (repeat_greedy_stop ClassD _ ds (String d "") post
                 (String d ds)).
Qed.

Lemma report_here L ws ds post :
  all_chars Text.isspace ws = true ->
  all_chars Text.isdigit ds = true -> ds <> "" ->
  stops Text.isdigit post = true ->
  match_here (report L) "" (L ++ ws ++ ds ++ post) = Some ds.
Proof.
  intros Hws Hds Hne Hpost. unfold report. rewrite match_here_lit.
  cbn [match_here].
  apply repeat_greedy_stop; [exact Hws| |now apply (digits_here "")].
  destruct ds as [|d ds]; [congruence|].
  simpl in *. apply andb_true_iff in Hds. destruct Hds as [Hd _].
  destruct (Text.isspace d) eqn:E; [|reflexivity].
  apply space_not_digit in E. congruence.
Qed.

(** A keyword whose first character does not occur again in it cannot
    begin before, and run into, a later occurrence of itself. *)
Lemma lit_straddle c0 p g R' r : forall L t,
  Text.contains c0 L = false ->
  match_here (lit L ++ p)%list g (t ++ String c0 R') = Some r ->
  exists t2, t = L ++ t2.
Proof.
  induction L as [|x L IH]; intros t Hc H; [now exists t|].
  simpl in Hc. apply orb_false_iff in Hc. destruct Hc as [Hx Hc].
  destruct t as [|y t]; simpl in H.
  - rewrite Ascii.eqb_sym, Hx in H. discriminate.
  - destruct (Ascii.eqb y x) eqn:E; [|discriminate].
    apply Ascii.eqb_eq in E. subst y.
    destruct (IH t Hc H) as [t2 ->]. now exists t2.
Qed.

Lemma number_tail_straddle c0 R' g :
  Text.isspace c0 = false -> Text.isdigit c0 = false ->
  forall t taken r,
    repeat_greedy ClassS (fun _ rest => match_here [GroupPlus ClassD] g rest)
                  taken (t ++ String c0 R') = Some r ->
    repeat_greedy ClassS (fun _ rest => match_here [GroupPlus ClassD] g rest)
                  taken t <> None.
Proof.
  intros Hs Hd.
  assert (Hdig : forall c t, Text.isdigit c = true ->
            match_here [GroupPlus ClassD] g (String c t) <> None).
  { intros c t Hc. simpl. rewrite Hc.
    apply repeat_greedy_total. discriminate. }
  induction t as [|c t IH]; intros taken r H.
  - simpl in H. rewrite Hs in H. simpl in H. rewrite Hd in H. discriminate.
  - simpl append in H. cbn [repeat_greedy class_matches] in *.
    destruct (Text.isspace c) eqn:Ec.
    + destruct (repeat_greedy ClassS _ (taken ++ String c "")
                  (t ++ String c0 R')) eqn:E.
      * apply IH in E.
        destruct (repeat_greedy ClassS _ (taken ++ String c "") t);
          [discriminate | congruence].
      * cbn [match_here class_matches] in H.
        rewrite (space_not_digit c Ec) in H. discriminate.
    + cbn [match_here class_matches] in H.
      destruct (Text.isdigit c) eqn:Edc; [|discriminate].
      now apply Hdig.
Qed.

(** If a report pattern has no match in [pre], it has none that begins in
    [pre] and runs into a following occurrence of its keyword. *)
Lemma report_no_straddle c0 L R' pre :
  Text.contains c0 L = false ->
  Text.isspace c0 = false -> Text.isdigit c0 = false ->
  search (report (String c0 L)) pre = None ->
  forall pre1 pre2, pre = pre1 ++ pre2 -> pre2 <> "" ->
    match_here (report (String c0 L)) "" (pre2 ++ String c0 R') = None.
Proof.
  intros Hc Hs Hd Hnone pre1 pre2 -> Hne.
  apply search_none_suffix in Hnone.
  destruct (match_here _ "" (pre2 ++ String c0 R')) eqn:E; [|reflexivity].
  exfalso. destruct pre2 as [|y t]; [congruence|].
  unfold report in *. simpl in E, Hnone.
  destruct (Ascii.eqb y c0); [|discriminate].
  destruct (lit_straddle _ _ _ _ _ _ _ Hc E) as [t2 ->].
  rewrite append_assoc, match_here_lit in E.
  rewrite match_here_lit in Hnone.
  cbn [match_here] in E, Hnone.
  apply (number_tail_straddle c0 R' "" Hs Hd) in E. apply E. exact Hnone.
Qed.

(** The leftmost report: nothing matches before it, so its number is the
    one found. *)
Lemma search_report c0 L pre ws ds post :
  Text.contains c0 L = false ->
  Text.isspace c0 = false -> Text.isdigit c0 = false ->
  search (report (String c0 L)) pre = None ->
  all_chars Text.isspace ws = true ->
  all_chars Text.isdigit ds = true -> ds <> "" ->
  stops Text.isdigit post = true ->
  search (report (String c0 L)) (pre ++ String c0 L ++ ws ++ ds ++ post)
  = Some ds.
Proof.
  intros Hc Hs Hd Hnone Hws Hds Hne Hpost.
  change (String c0 L ++ ws ++ ds ++ post)
    with (String c0 (L ++ ws ++ ds ++ post)).
  rewrite search_skip.
  - apply search_here.
    now apply (report_here (String c0 L)).
  - now apply report_no_straddle.
Qed.

End ReFacts.

(** ** Facts about the extractor *)

Module ExtractFacts.

Import Text Re TextFacts ReFacts.

Lemma first_match_priority output : forall ps k p g,
  nth_error ps k = Some p ->
  search p output = Some g ->
  (forall j q, (j < k)%nat -> nth_error ps j = Some q ->
     search q output = None) ->
  first_match ps output = Some (Text.int g).
Proof.
  induction ps as [|p0 ps IH]; intros k p g Hk Hg Hbefore.
  - destruct k; discriminate.
  - destruct k as [|k]; simpl in Hk.
    + injection Hk as ->. simpl. now rewrite Hg.
    + simpl. rewrite (Hbefore 0%nat p0) by (simpl; auto; lia).
      apply (IH k p g Hk Hg).
      intros j q Hj Hq. apply (Hbefore (S j) q); [lia | exact Hq].
Qed.

Lemma first_match_none output : forall ps,
  (forall p, In p ps -> search p output = None) ->
  first_match ps output = None.
Proof.
  induction ps as [|p ps IH]; intros H; [reflexivity|].
  simpl. rewrite (H p) by now left.
  apply IH. intros q Hq. apply H. now right.
Qed.

Lemma first_match_nonneg output : forall ps n,
  Forall (groups_are ClassD) ps ->
  first_match ps output = Some n -> 0 <= n.
Proof.
  induction ps as [|p ps IH]; intros n Hps H; [discriminate|].
  inversion Hps as [|? ? Hp Hps']; subst. simpl in H.
  destruct (search p output) as [g|] eqn:E.
  - injection H as <-. apply int_nonneg.
    exact (search_group ClassD p Hp output g E).
  - now apply IH.
Qed.

Lemma patterns_capture_digits : Forall (groups_are ClassD) patterns.
Proof. unfold patterns, groups_are. repeat constructor. Qed.

(** The fall-back, when no pattern matches. *)
Lemma extract_fallback output :
  first_match patterns output = None ->
  extract_plan_length output =
    if (0 <? action_count output)%nat
    then Z.of_nat (action_count output) else -1.
Proof.
  intros H. unfold extract_plan_length. rewrite H. cbv zeta.
  destruct (Nat.ltb_spec 0 (action_count output)) as [L|L].
  - destruct (Z.gtb_spec (Z.of_nat (action_count output)) 0); [reflexivity|lia].
  - destruct (Z.gtb_spec (Z.of_nat (action_count output)) 0); [lia|reflexivity].
Qed.

Lemma count_of_filter {A} (P : A -> Prop) (f : A -> bool) :
  (forall x, f x = true <-> P x) ->
  forall l n, count_of P l n -> List.length (filter f l) = n.
Proof.
  intros Hf. induction 1 as [|x l n Hx _ IH|x l n Hx _ IH]; simpl.
  - reflexivity.
  - apply Hf in Hx. rewrite Hx. simpl. now rewrite IH.
  - destruct (f x) eqn:E; [|exact IH]. apply Hf in E. contradiction.
Qed.

Lemma lstrip_spec line :
  exists ws, line = ws ++ lstrip line
             /\ all_chars isspace ws = true
             /\ stops isspace (lstrip line) = true.
Proof.
  induction line as [|c line (ws & E & Hws & Hstop)].
  - now exists "".
  - simpl. destruct (isspace c) eqn:Ec.
    + exists (String c ws). simpl. rewrite Ec, Hws. repeat split; auto.
      now rewrite <- E.
    + exists "". simpl. now rewrite Ec.
Qed.

Lemma lstrip_skip ws s :
  all_chars isspace ws = true -> stops isspace s = true ->
  lstrip (ws ++ s) = s.
Proof.
  induction ws as [|c ws IH]; simpl; intros Hws Hs.
  - destruct s as [|c s]; [reflexivity|].
    simpl in *. apply negb_true_iff in Hs. now rewrite Hs.
  - apply andb_true_iff in Hws. destruct Hws as [Hc Hws].
    rewrite Hc. now apply IH.
Qed.

Lemma rstrip_head c s :
  isspace c = false -> exists r, rstrip (String c s) = String c r.
Proof.
  intros Hc. simpl. destruct (rstrip s) as [|d r].
  - rewrite Hc. now exists "".
  - now exists (String d r).
Qed.

Lemma startswith_rstrip c s :
  startswith c (rstrip s) = true -> startswith c s = true.
Proof.
  destruct s as [|d s]; simpl; [discriminate|].
  destruct (rstrip s); [destruct (isspace d)|]; simpl; auto; discriminate.
Qed.

Lemma contains_occurs c s :
  contains c s = true <-> occurs_in (String c "") s.
Proof.
  split.
  - induction s as [|d s IH]; simpl; [discriminate|]. intros H.
    apply orb_true_iff in H. destruct H as [H|H].
    + apply Ascii.eqb_eq in H. subst d. now exists "", s.
    + destruct (IH H) as (pre & post & ->). now exists (String d pre), post.
  - intros (pre & post & ->).
    induction pre as [|d pre IH]; simpl in *.
    + now rewrite Ascii.eqb_refl.
    + rewrite IH. apply orb_true_r.
Qed.

(** The test the code makes on a line is the specification's. *)
Lemma is_action_line_spec line :
  is_action_line line = true <-> looks_like_action line.
Proof.
  unfold is_action_line, looks_like_action, strip.
  rewrite andb_true_iff, contains_occurs.
  apply and_iff_compat_r. split.
  - intros H. apply startswith_rstrip in H.
    destruct (lstrip_spec line) as (ws & E & Hws & _).
    destruct (lstrip line) as [|c rest]; [discriminate|].
    simpl in H. apply Ascii.eqb_eq in H. subst c. now exists ws, rest.
  - intros (ws & rest & -> & Hws).
    rewrite lstrip_skip by (auto; reflexivity).
    destruct (rstrip_head "(" rest) as [r ->]; reflexivity.
Qed.

(** [split_lines] cuts at the line feeds and nowhere else. *)
Lemma split_lines_from_spec s : forall cur,
  contains LF cur = false ->
  join_lines (split_lines_from cur s) = cur ++ s
  /\ Forall (fun l => contains LF l = false) (split_lines_from cur s)
  /\ split_lines_from cur s <> [].
Proof.
  induction s as [|c s IH]; intros cur Hcur; cbn [split_lines_from].
  - rewrite append_nil_r. cbn. repeat split; auto. discriminate.
  - destruct (Ascii.eqb c LF) eqn:E.
    + apply Ascii.eqb_eq in E. subst c.
      destruct (IH "" eq_refl) as (J & F & N).
      repeat split; [|now constructor|discriminate].
      cbn [join_lines]. destruct (split_lines_from "" s) eqn:Es;
        [congruence|]. now rewrite J.
    + destruct (IH (cur ++ String c "")) as (J & F & N).
      * clear IH. induction cur as [|x cur IHc]; cbn in *.
        -- now rewrite E.
        -- apply orb_false_iff in Hcur. destruct Hcur as [-> Hcur].
           now apply IHc.
      * rewrite J, append_assoc. auto.
Qed.

Lemma split_lines_spec s :
  join_lines (split_lines s) = s
  /\ Forall (fun l => contains LF l = false) (split_lines s).
Proof.
  destruct (split_lines_from_spec s "" eq_refl) as (J & F & _). now split.
Qed.

Lemma action_count_spec output n :
  count_of looks_like_action (split_lines output) n ->
  action_count output = n.
Proof. apply count_of_filter, is_action_line_spec. Qed.

Lemma count_of_none {A} (P : A -> Prop) : forall l,
  (forall x, In x l -> ~ P x) -> count_of P l 0.
Proof.
  induction l as [|x l IH]; intros H; constructor.
  - apply H. now left.
  - apply IH. intros y Hy. apply H. now right.
Qed.

End ExtractFacts.

(** * The extractor's claims *)

Import Text Re TextFacts ReFacts ExtractFacts.

(** C3.  The four patterns are tried in the listed order, and the number
    returned is the one captured by the first pattern of the list that
    matches anywhere in the text: when the pattern at position [k] matches
    and no pattern listed before it does, its capture is returned, whatever
    the later patterns match and wherever they match. *)
Theorem extract_plan_length_priority (output : string) (k : nat)
    (p : pattern) (g : string) :
  nth_error patterns k = Some p ->
  search p output = Some g ->
  (forall j q, (j < k)%nat -> nth_error patterns j = Some q ->
     search q output = None) ->
  patterns = [ report "Plan length:";
               (lit "Solution found with " ++ [GroupPlus ClassD]
                  ++ lit " actions")%list;
               ([GroupPlus ClassD] ++ lit " actions in the plan")%list;
               report "Steps:" ]
  /\ extract_plan_length output = Text.int g.
Proof.
  intros Hk Hg Hbefore. split; [reflexivity|].
  unfold extract_plan_length.
  now rewrite (first_match_priority output patterns k p g Hk Hg Hbefore).
Qed.

(** "Steps: 3" comes first in the text, "Plan length: 9" second: the result
    is 9. *)
Lemma extract_plan_length_priority_witness :
  let output := "Steps: 3" ++ String LF "Plan length: 9" in
  search (report "Steps:") output = Some "3"
  /\ extract_plan_length output = 9.
Proof.
  split; [reflexivity|].
  apply (extract_plan_length_priority _ 0 (report "Plan length:") "9").
  - reflexivity.
  - reflexivity.
  - intros j q Hj. lia.
Defined.

(** C4 fails: "Plan length: 75" contains "Plan length: 7" and yields 75. *)
Lemma plan_length_7_anywhere_fails : ~ plan_length_7_anywhere.
Proof.
  intros H.
  assert (E : extract_plan_length "Plan length: 75" = 7).
  { apply H. now exists "", "5". }
  vm_compute in E. discriminate.
Qed.

(** C4, amended.  When the text before "Plan length: 7" holds no match of
    the first pattern and the text after it does not begin with a digit,
    the result is 7, whatever else the text holds. *)
Theorem plan_length_7_leftmost (pre post : string) :
  search (nth 0 patterns []) pre = None ->
  stops isdigit post = true ->
  extract_plan_length (pre ++ "Plan length: 7" ++ post) = 7.
Proof.
  intros Hpre Hpost. unfold extract_plan_length.
  rewrite (first_match_priority _ patterns 0 (report "Plan length:") "7").
  - reflexivity.
  - reflexivity.
  - apply (search_report "P" "lan length:" pre " " "7" post);
      auto; try reflexivity. discriminate.
  - intros j q Hj. lia.
Qed.

Lemma plan_length_7_leftmost_witness :
  extract_plan_length
    ("Steps: 3, Plan length:" ++ "Plan length: 7" ++ " (Plan length: 8)") = 7.
Proof.
  apply plan_length_7_leftmost; reflexivity.
Defined.

(** C5.  When none of the four patterns matches and [n > 0] lines of the
    text look like an action (trimmed of whitespace they begin with an
    opening parenthesis, and they hold a closing parenthesis), the result
    is [n]; with exactly three such lines it is 3. *)
Theorem fallback_counts_action_lines (output : string) (n : nat) :
  (forall p, In p patterns -> search p output = None) ->
  count_of looks_like_action (split_lines output) n ->
  (0 < n)%nat ->
  extract_plan_length output = Z.of_nat n
  /\ (n = 3%nat -> extract_plan_length output = 3).
Proof.
  intros Hnone Hcount Hpos.
  apply first_match_none in Hnone. apply action_count_spec in Hcount.
  rewrite (extract_fallback output Hnone), Hcount.
  destruct (Nat.ltb_spec 0 n); [|lia].
  split; [reflexivity | now intros ->].
Qed.

Lemma fallback_counts_action_lines_witness :
  extract_plan_length
    ("found plan:" ++ String LF
     "  (pick-up a)" ++ String LF
     "(stack a b) " ++ String LF
     "cost (unit)" ++ String LF
     (String (ascii_of_nat 9) "(put-down b)")) = 3.
Proof.
  refine (proj2 (fallback_counts_action_lines _ 3 _ _ _) eq_refl).
  - intros p [<-|[<-|[<-|[<-|[]]]]]; reflexivity.
  - change (count_of looks_like_action
              [ "found plan:"; "  (pick-up a)"; "(stack a b) ";
                "cost (unit)"; String (ascii_of_nat 9) "(put-down b)" ] 3).
    apply count_no;
      [intros H; apply is_action_line_spec in H; discriminate|].
    apply count_yes; [now apply is_action_line_spec|].
    apply count_yes; [now apply is_action_line_spec|].
    apply count_no;
      [intros H; apply is_action_line_spec in H; discriminate|].
    apply count_yes; [now apply is_action_line_spec|].
    apply count_nil.
  - lia.
Defined.

(** C6.  When no pattern matches and no line looks like an action, the
    result is -1: a value, not an exception.  It is the only negative value
    the extractor ever returns. *)
Theorem undetermined_is_minus_one :
  (forall output,
     (forall p, In p patterns -> search p output = None) ->
     (forall line, In line (split_lines output) -> ~ looks_like_action line) ->
     extract_plan_length output = -1)
  /\ (forall output,
        extract_plan_length output < 0 -> extract_plan_length output = -1).
Proof.
  split.
  - intros output Hnone Hlines.
    apply first_match_none in Hnone.
    rewrite (extract_fallback output Hnone).
    now rewrite (action_count_spec output 0 (count_of_none _ _ Hlines)).
  - intros output. unfold extract_plan_length.
    destruct (first_match patterns output) as [n|] eqn:E.
    + pose proof (first_match_nonneg output patterns n
                    patterns_capture_digits E). lia.
    + cbv zeta. destruct (Z.gtb_spec (Z.of_nat (action_count output)) 0); lia.
Qed.

Lemma undetermined_is_minus_one_witness :
  extract_plan_length ("no plan found" ++ String LF "(unfinished") = -1
  /\ extract_plan_length "" = -1.
Proof.
  split.
  - apply (proj1 undetermined_is_minus_one).
    + intros p [<-|[<-|[<-|[<-|[]]]]]; reflexivity.
    + intros line [<-|[<-|[]]] H; apply is_action_line_spec in H;
        discriminate.
  - apply (proj2 undetermined_is_minus_one). reflexivity.
Defined.

(** ** Facts about the adapters *)

Module AdapterFacts.

Lemma adapter_exits self cmd run w p :
  adapter_call self cmd run ->
  Py.exec w cmd (timeout self) = Subprocess.Exits p ->
  run w =
  (Py.Returns
     {| success := (Subprocess.returncode p =? 0)
                   && (extract_plan_length (Subprocess.stdout p) >? 0);
        runtime := (Py.clock w (S (Py.ticks w)) - Py.clock w (Py.ticks w))%Q;
        plan_length := extract_plan_length (Subprocess.stdout p);
        stdout := Subprocess.stdout p;
        stderr := Subprocess.stderr p |},
   tick (tick w)).
Proof.
  intros [d f|d f wk ln] H;
    unfold run_hsp_planner, run_mcts_planner, Py.bind,
      Py.try_except_TimeoutExpired, Py.subprocess_run, Py.time_time, Py.ret;
    cbn [Py.exec Py.clock Py.ticks fst snd]; rewrite H; reflexivity.
Qed.

Lemma adapter_times_out self cmd run w :
  adapter_call self cmd run ->
  Py.exec w cmd (timeout self) = Subprocess.TimesOut ->
  run w = (Py.Returns (timeout_outcome self), tick w).
Proof.
  intros [d f|d f wk ln] H;
    unfold run_hsp_planner, run_mcts_planner, Py.bind,
      Py.try_except_TimeoutExpired, Py.subprocess_run, Py.time_time, Py.ret;
    cbn [Py.exec Py.clock Py.ticks fst snd]; rewrite H; reflexivity.
Qed.

Lemma adapter_cannot_start self cmd run w msg :
  adapter_call self cmd run ->
  Py.exec w cmd (timeout self) = Subprocess.CannotStart msg ->
  run w = (Py.Raises (Py.OSError msg), tick w).
Proof.
  intros [d f|d f wk ln] H;
    unfold run_hsp_planner, run_mcts_planner, Py.bind,
      Py.try_except_TimeoutExpired, Py.subprocess_run, Py.time_time, Py.ret;
    cbn [Py.exec Py.clock Py.ticks fst snd]; rewrite H; reflexivity.
Qed.

Lemma adapter_undecodable self cmd run w :
  adapter_call self cmd run ->
  Py.exec w cmd (timeout self) = Subprocess.Undecodable ->
  run w = (Py.Raises Py.UnicodeDecodeError, tick w).
Proof.
  intros [d f|d f wk ln] H;
    unfold run_hsp_planner, run_mcts_planner, Py.bind,
      Py.try_except_TimeoutExpired, Py.subprocess_run, Py.time_time, Py.ret;
    cbn [Py.exec Py.clock Py.ticks fst snd]; rewrite H; reflexivity.
Qed.

Lemma adapter_refused self cmd run w msg :
  adapter_call self cmd run ->
  Py.exec w cmd (timeout self) = Subprocess.Refused msg ->
  run w = (Py.Raises (Py.ValueError msg), tick w).
Proof.
  intros [d f|d f wk ln] H;
    unfold run_hsp_planner, run_mcts_planner, Py.bind,
      Py.try_except_TimeoutExpired, Py.subprocess_run, Py.time_time, Py.ret;
    cbn [Py.exec Py.clock Py.ticks fst snd]; rewrite H; reflexivity.
Qed.

End AdapterFacts.

(** * The adapters' claims *)

Import AdapterFacts.

(** C1.  When the external program runs into the timeout, either adapter
    returns (it does not raise) the outcome with [success = False], the
    configured timeout as runtime, plan length -1, empty [stdout] and
    ["Timeout"] as [stderr]. *)
Theorem timeout_returns_outcome (self : instance) (cmd : list string)
    (run : Py.M RunOutcome) (w : Py.World) :
  adapter_call self cmd run ->
  Py.exec w cmd (timeout self) = Subprocess.TimesOut ->
  fst (run w) =
  Py.Returns {| success := false;
                runtime := inject_Z (timeout self);
                plan_length := -1;
                stdout := "";
                stderr := "Timeout" |}.
Proof.
  intros Hcall Hexec. now rewrite (adapter_times_out self cmd run w Hcall Hexec).
Qed.

Lemma timeout_returns_outcome_witness :
  let self := init "pddl4j.jar" (Some 60) in
  let w := world_where Subprocess.TimesOut in
  fst (run_hsp_planner self "domain.pddl" "p01.pddl" w)
  = Py.Returns {| success := false; runtime := 60 # 1; plan_length := -1;
                  stdout := ""; stderr := "Timeout" |}
  /\ fst (run_mcts_planner self "domain.pddl" "p01.pddl" None (Some 50) w)
     = Py.Returns {| success := false; runtime := 60 # 1; plan_length := -1;
                     stdout := ""; stderr := "Timeout" |}.
Proof.
  split.
  - apply (timeout_returns_outcome (init "pddl4j.jar" (Some 60))
             _ _ (world_where Subprocess.TimesOut) (call_hsp _ _ _)).
    reflexivity.
  - apply (timeout_returns_outcome (init "pddl4j.jar" (Some 60))
             _ _ (world_where Subprocess.TimesOut) (call_mcts _ _ _ _ _)).
    reflexivity.
Defined.

(** C2 fails: a program that exits with status 0 and prints "Steps: 50" has
    printed a text in which "Steps: 5" occurs, and the plan length is 50. *)
Lemma steps_5_anywhere_fails :
  ~ (success_iff_exit_0_and_plan /\ steps_5_anywhere).
Proof.
  intros [_ H].
  pose (p := {| Subprocess.returncode := 0; Subprocess.stdout := "Steps: 50";
                Subprocess.stderr := "" |}).
  destruct (H (init "pddl4j.jar" None) _ _ (world_where (Subprocess.Exits p)) p
              (call_hsp _ "domain.pddl" "p01.pddl") eq_refl eq_refl)
    as (out & Hout & _ & Hlen).
  - now exists "", "0".
  - intros j q Hj Hq.
    destruct j as [|[|[|j]]]; [| | |lia]; injection Hq as <-; reflexivity.
  - vm_compute in Hout. injection Hout as <-. discriminate.
Qed.

(** C2, amended.  On a normal exit the outcome is successful exactly when
    the exit status is 0 and the extracted plan length is positive.  With
    exit status 0 and an output in which no earlier pattern matches, in
    which the text before "Steps: 5" holds no match of the fourth pattern
    and the text after it does not begin with a digit, the outcome is
    successful with plan length 5. *)
Theorem normal_exit_outcome :
  success_iff_exit_0_and_plan
  /\ (forall self cmd run w p pre post,
        adapter_call self cmd run ->
        Py.exec w cmd (timeout self) = Subprocess.Exits p ->
        Subprocess.returncode p = 0 ->
        Subprocess.stdout p = pre ++ "Steps: 5" ++ post ->
        (forall j q, (j < 3)%nat -> nth_error patterns j = Some q ->
           search q (Subprocess.stdout p) = None) ->
        search (nth 3 patterns []) pre = None ->
        stops isdigit post = true ->
        exists out,
          fst (run w) = Py.Returns out
          /\ success out = true /\ plan_length out = 5).
Proof.
  split.
  - intros self cmd run w p Hcall Hexec.
    rewrite (adapter_exits self cmd run w p Hcall Hexec).
    eexists. split; [reflexivity|]. split; [reflexivity|].
    cbn [success plan_length].
    rewrite andb_true_iff, Z.eqb_eq, Z.gtb_ltb, Z.ltb_lt. reflexivity.
  - intros self cmd run w p pre post Hcall Hexec Hrc Hout Hearlier Hpre Hpost.
    rewrite (adapter_exits self cmd run w p Hcall Hexec).
    assert (E : extract_plan_length (Subprocess.stdout p) = 5).
    { unfold extract_plan_length.
      rewrite (first_match_priority _ patterns 3 (report "Steps:") "5").
      - reflexivity.
      - reflexivity.
      - rewrite Hout.
        apply (search_report "S" "teps:" pre " " "5" post);
          auto; try reflexivity. discriminate.
      - exact Hearlier. }
    eexists. split; [reflexivity|]. cbn [success plan_length].
    rewrite E, Hrc. split; reflexivity.
Qed.

Lemma normal_exit_outcome_witness :
  let self := init "pddl4j.jar" None in
  let p := {| Subprocess.returncode := 0;
              Subprocess.stdout := "Steps:" ++ "Steps: 5" ++ " (Steps: 6)";
              Subprocess.stderr := "" |} in
  let w := world_where (Subprocess.Exits p) in
  exists out,
    fst (run_mcts_planner self "domain.pddl" "p01.pddl" None None w)
    = Py.Returns out
    /\ success out = true /\ plan_length out = 5.
Proof.
  cbv zeta.
  refine (proj2 normal_exit_outcome (init "pddl4j.jar" None) _ _
            (world_where _)
            {| Subprocess.returncode := 0;
               Subprocess.stdout := "Steps:" ++ "Steps: 5" ++ " (Steps: 6)";
               Subprocess.stderr := "" |}
            "Steps:" " (Steps: 6)"
            (call_mcts _ "domain.pddl" "p01.pddl" None None)
            eq_refl eq_refl eq_refl _ eq_refl eq_refl).
  intros j q Hj Hq.
  destruct j as [|[|[|j]]]; [| | |lia]; injection Hq as <-; reflexivity.
Defined.

(** C10.  Whatever either adapter returns, from the normal-exit branch or
    from the timeout branch: a successful outcome carries a plan length of
    at least 1. *)
Theorem success_has_positive_plan_length (self : instance)
    (cmd : list string) (run : Py.M RunOutcome) (w : Py.World)
    (out : RunOutcome) :
  adapter_call self cmd run ->
  fst (run w) = Py.Returns out ->
  success out = true ->
  1 <= plan_length out.
Proof.
  intros Hcall Hout Hsucc.
  destruct (Py.exec w cmd (timeout self)) as [p| |msg| |msg] eqn:E.
  - rewrite (adapter_exits self cmd run w p Hcall E) in Hout.
    injection Hout as <-. cbn [success plan_length] in *.
    apply andb_true_iff in Hsucc. destruct Hsucc as [_ H].
    rewrite Z.gtb_ltb in H. apply Z.ltb_lt in H. lia.
  - rewrite (adapter_times_out self cmd run w Hcall E) in Hout.
    injection Hout as <-. discriminate.
  - rewrite (adapter_cannot_start self cmd run w msg Hcall E) in Hout.
    discriminate.
  - rewrite (adapter_undecodable self cmd run w Hcall E) in Hout.
    discriminate.
  - rewrite (adapter_refused self cmd run w msg Hcall E) in Hout.
    discriminate.
Qed.

Lemma success_has_positive_plan_length_witness :
  let p := {| Subprocess.returncode := 0;
              Subprocess.stdout := "Solution found with 12 actions";
              Subprocess.stderr := "" |} in
  let out := {| success := true; runtime := 1 - 0; plan_length := 12;
                stdout := "Solution found with 12 actions"; stderr := "" |} in
  fst (run_hsp_planner (init "pddl4j.jar" None) "domain.pddl" "p01.pddl"
         (world_where (Subprocess.Exits p))) = Py.Returns out
  /\ 1 <= plan_length out.
Proof.
  cbv zeta. split; [reflexivity|].
  apply (success_has_positive_plan_length (init "pddl4j.jar" None) _ _
           (world_where (Subprocess.Exits
              {| Subprocess.returncode := 0;
                 Subprocess.stdout := "Solution found with 12 actions";
                 Subprocess.stderr := "" |})) _
           (call_hsp _ "domain.pddl" "p01.pddl"));
    reflexivity.
Defined.

(** ** Facts about the plots *)

Module PlotFacts.

Section InsertionSort.

Variable before : Row -> Row -> bool.
Hypothesis before_true : forall r x, before r x = true -> by_hsp_runtime r x.
Hypothesis before_false :
  forall r x, before r x = false -> by_hsp_runtime x r.





End InsertionSort.



(** The reference sort keeps ties in their order: the property is one a
    sort can have. *)
Lemma insert_tied q r : forall l,
  tied_at q (insert (fun r x => Qle_bool (hsp_runtime r) (hsp_runtime x)) r l)
  = tied_at q (r :: l).
Proof.
  unfold tied_at. induction l as [|x l IH]; [reflexivity|].
  cbn [insert]. destruct (Qle_bool (hsp_runtime r) (hsp_runtime x)) eqn:E;
    [reflexivity|].
  cbn [filter] in *. rewrite IH.
  destruct (Qeq_bool (hsp_runtime x) q) eqn:Ex;
    destruct (Qeq_bool (hsp_runtime r) q) eqn:Er; try reflexivity.
  exfalso. apply Qeq_bool_iff in Ex, Er.
  assert (L : (hsp_runtime r <= hsp_runtime x)%Q)
    by (rewrite Ex, Er; apply Qle_refl).
  apply Qle_bool_iff in L. congruence.
Qed.

Lemma stable_sort_keeps_ties q : forall l,
  tied_at q (stable_sort l) = tied_at q l.
Proof.
  induction l as [|r l IH]; [reflexivity|].
  unfold stable_sort in *. cbn [insertion_sort fold_right].
  fold (insertion_sort
          (fun r x => Qle_bool (hsp_runtime r) (hsp_runtime x)) l).
  rewrite insert_tied. unfold tied_at in *. cbn [filter]. now rewrite IH.
Qed.


Lemma unique_In x : forall l, In x (unique l) <-> In x l.
Proof.
  induction l as [|y l IH]; simpl; [reflexivity|].
  rewrite filter_In, IH, negb_true_iff, String.eqb_neq.
  destruct (string_dec y x) as [->|N]; [tauto|].
  split; [tauto|]. intros [H|H]; [tauto|]. right. split; [exact H|].
  congruence.
Qed.

Lemma unique_NoDup : forall l, NoDup (unique l).
Proof.
  induction l as [|y l IH]; simpl; constructor.
  - rewrite filter_In, String.eqb_refl. intros [_ H]. discriminate.
  - now apply NoDup_filter.
Qed.

(** *** The register sort and [sort_values] *)

Lemma covers_perm idx n : covers idx n = true -> Permutation idx (seq 0 n).
Proof.
  unfold covers. intros H. apply andb_true_iff in H. destruct H as [H L].
  apply Nat.leb_le in L. apply Permutation_sym.
  apply NoDup_Permutation_bis.
  - apply seq_NoDup.
  - now rewrite length_seq.
  - intros i Hi. rewrite forallb_forall in H. apply H in Hi.
    apply existsb_exists in Hi. destruct Hi as (j & Hj & E).
    apply Nat.eqb_eq in E. now subst.
Qed.

Ltac split_tests :=
  repeat match goal with
         | |- context [Qle_bool ?x ?y] =>
             let E := fresh "E" in destruct (Qle_bool x y) eqn:E
         end.

Ltac tests_to_order :=
  repeat match goal with
         | H : Qle_bool _ _ = true |- _ => apply Qle_bool_iff in H
         | H : Qle_bool ?x ?y = false |- _ =>
             assert (y < x)%Q
               by (apply Qnot_le_lt; intros C; apply Qle_bool_iff in C;
                   congruence);
             clear H
         end.

(** The network sorts: on up to four keys the register sort is an
    argsort.  Every outcome of its six comparisons is gone through. *)
Lemma argsort_register long keys :
  (List.length keys <= 4)%nat -> is_argsort keys (Numpy.argsort long keys).
Proof.
  intros H. unfold is_argsort, Numpy.argsort.
  destruct (Nat.leb_spec (List.length keys) 4) as [_|C]; [|lia].
  destruct keys as [|k1 [|k2 [|k3 [|k4 [|k5 keys]]]]];
    [| | | | | simpl in H; lia]; (split; [apply covers_perm|]);
    cbv [Numpy.load Numpy.sort_register Numpy.cmp_merge Numpy.above
         Numpy.store List.length seq combine map nth firstn flat_map app
         key_at negb];
    split_tests; try reflexivity;
    tests_to_order;
    repeat (constructor; try lra).
Qed.

Lemma argsort_is_argsort long keys :
  sorts_long_arrays long -> is_argsort keys (Numpy.argsort long keys).
Proof.
  intros Hlong.
  destruct (Nat.leb_spec (List.length keys) 4) as [L|L].
  - now apply argsort_register.
  - unfold Numpy.argsort.
    destruct (Nat.leb_spec (List.length keys) 4); [lia|]. now apply Hlong.
Qed.

Lemma insert_index_perm keys i : forall l,
  Permutation (i :: l) (insert_index keys i l).
Proof.
  induction l as [|j l IH]; simpl; [reflexivity|].
  destruct (Qle_bool _ _); [reflexivity|].
  rewrite perm_swap. now apply perm_skip.
Qed.

Lemma insert_index_sorted keys i : forall l,
  StronglySorted (fun a b => (key_at keys a <= key_at keys b)%Q) l ->
  StronglySorted (fun a b => (key_at keys a <= key_at keys b)%Q)
                 (insert_index keys i l).
Proof.
  induction l as [|j l IH]; intros Hl; simpl.
  - repeat constructor.
  - inversion Hl as [|? ? Hl' Hj]; subst.
    destruct (Qle_bool (key_at keys i) (key_at keys j)) eqn:E.
    + apply Qle_bool_iff in E. constructor; [exact Hl|].
      constructor; [exact E|].
      eapply Forall_impl; [|exact Hj].
      intros y Hy. eapply Qle_trans; eassumption.
    + constructor; [now apply IH|].
      eapply Permutation_Forall; [apply insert_index_perm|].
      constructor; [|exact Hj].
      destruct (Qlt_le_dec (key_at keys i) (key_at keys j)) as [L|L];
        [|exact L].
      apply Qlt_le_weak, Qle_bool_iff in L. congruence.
Qed.

Lemma sorted_map {A} (f : A -> Q) : forall l,
  StronglySorted (fun a b => (f a <= f b)%Q) l <->
  StronglySorted Qle (map f l).
Proof.
  induction l as [|x l IH]; simpl; split; intros H;
    try constructor; inversion H as [|? ? Hl Hx]; subst.
  - now apply IH.
  - rewrite Forall_map. exact Hx.
  - now apply IH.
  - rewrite Forall_map in Hx. exact Hx.
Qed.

Lemma insertion_argsort_is_argsort keys :
  is_argsort keys (insertion_argsort keys).
Proof.
  unfold is_argsort, insertion_argsort. split.
  - induction (seq 0 (List.length keys)) as [|i l IH]; simpl; [reflexivity|].
    rewrite <- insert_index_perm. now apply perm_skip.
  - apply (sorted_map (key_at keys)).
    induction (seq 0 (List.length keys)) as [|i l IH]; simpl; [constructor|].
    now apply insert_index_sorted.
Qed.

Lemma insertion_argsort_sorts : sorts_long_arrays insertion_argsort.
Proof. intros keys _. apply insertion_argsort_is_argsort. Qed.

Lemma take_all {A} : forall (l2 l1 : list A),
  DataFrame.take (seq (List.length l1) (List.length l2)) (l1 ++ l2) = l2.
Proof.
  unfold DataFrame.take.
  induction l2 as [|x l2 IH]; intros l1; [reflexivity|].
  cbn [List.length seq flat_map].
  rewrite nth_error_app2, Nat.sub_diag by lia. cbn [nth_error app].
  f_equal.
  specialize (IH (l1 ++ [x])%list).
  rewrite length_app, <- app_assoc in IH. cbn in IH.
  now rewrite Nat.add_1_r in IH.
Qed.

Lemma take_perm {A} (df : list A) indexer :
  Permutation indexer (seq 0 (List.length df)) ->
  Permutation df (DataFrame.take indexer df).
Proof.
  intros P. rewrite <- (take_all df []) at 1. cbn [List.length app].
  unfold DataFrame.take. apply Permutation_flat_map. now symmetry.
Qed.

Lemma take_keys {A} (column : A -> Q) (df : list A) : forall indexer,
  Forall (fun i => (i < List.length df)%nat) indexer ->
  map column (DataFrame.take indexer df)
  = map (key_at (map column df)) indexer.
Proof.
  unfold DataFrame.take.
  induction 1 as [|i indexer Hi _ IH]; [reflexivity|].
  cbn [flat_map map]. rewrite map_app, IH. unfold key_at at 2.
  destruct (nth_error df i) as [r|] eqn:E.
  - cbn. f_equal.
    erewrite nth_error_nth; [reflexivity|]. now apply map_nth_error.
  - apply nth_error_None in E. lia.
Qed.

Lemma sort_values_is_sorted {A} long (column : A -> Q) (df : list A) :
  sorts_long_arrays long ->
  Permutation df (DataFrame.sort_values long column df)
  /\ StronglySorted (fun a b => (column a <= column b)%Q)
                    (DataFrame.sort_values long column df).
Proof.
  intros Hlong. unfold DataFrame.sort_values.
  destruct (argsort_is_argsort long (map column df) Hlong) as [P S].
  rewrite length_map in P. split; [now apply take_perm|].
  apply (sorted_map column). rewrite take_keys; [exact S|].
  apply Forall_forall. intros i Hi.
  apply (Permutation_in i P), in_seq in Hi. lia.
Qed.

(** With the column and the direction of the call in [generate_plots],
    [sort_values] is a sort of rows by HSP runtime. *)
Lemma sort_values_sorts long :
  sorts_long_arrays long ->
  sorts_by_hsp_runtime (DataFrame.sort_values long hsp_runtime).
Proof.
  intros Hlong. split; intros l;
    now destruct (sort_values_is_sorted long hsp_runtime l Hlong).
Qed.


(** *** What [generate_plots] saves *)

Lemma saved_before_failure_all ok : forall ds,
  forallb (fun d => ok (figure_path d)) ds = true ->
  saved_before_failure ok ds = ds.
Proof.
  induction ds as [|d ds IH]; simpl; intros H; [reflexivity|].
  apply andb_true_iff in H. destruct H as [Hd H]. rewrite Hd.
  now rewrite IH.
Qed.

Lemma saved_before_failure_In ok d : forall ds,
  In d (saved_before_failure ok ds) ->
  In d ds /\ ok (figure_path d) = true.
Proof.
  induction ds as [|x ds IH]; simpl; [contradiction|].
  destruct (ok (figure_path x)) eqn:E; [|contradiction].
  intros [<-|H]; [now auto|]. destruct (IH H). auto.
Qed.


Lemma for_each_savefig (fig : string -> Plot.Figure) :
  forall ds w,
    let r := Py.for_each ds
               (fun d => Py.plt_savefig (figure_path d) (fig d)) w in
    Py.files (snd r) =
      (Py.files w ++
       map (fun d => (figure_path d, fig d))
           (saved_before_failure (Py.can_save w) ds))%list
    /\ Py.console (snd r) = Py.console w
    /\ Py.dirs (snd r) = Py.dirs w
    /\ (fst r = Py.Returns tt <->
        forallb (fun d => Py.can_save w (figure_path d)) ds = true).
Proof.
  induction ds as [|d ds IH]; intros w; cbv zeta.
  - simpl. rewrite app_nil_r. repeat split; auto.
  - pose (w1 := {| Py.clock := Py.clock w; Py.ticks := Py.ticks w;
                   Py.exec := Py.exec w; Py.console := Py.console w;
                   Py.dirs := Py.dirs w;
                   Py.files :=
                     (Py.files w ++ [(figure_path d, fig d)])%list;
                   Py.can_make := Py.can_make w;
                   Py.can_save := Py.can_save w |}).
    assert (Hstep :
      Py.for_each (d :: ds)
        (fun d => Py.plt_savefig (figure_path d) (fig d)) w
      = if Py.can_save w (figure_path d)
        then Py.for_each ds
               (fun d => Py.plt_savefig (figure_path d) (fig d)) w1
        else (Py.Raises (Py.OSError (figure_path d)), w)).
    { cbn [Py.for_each]. unfold Py.bind. unfold Py.plt_savefig at 1.
      now destruct (Py.can_save w (figure_path d)). }
    rewrite Hstep. cbn [saved_before_failure forallb].
    destruct (Py.can_save w (figure_path d)) eqn:E.
    + destruct (IH w1) as (E1 & E2 & E3 & E4).
      cbv zeta in E1, E2, E3, E4.
      rewrite E1, E2, E3, E4. subst w1.
      cbn [Py.files Py.console Py.dirs Py.can_save map andb].
      rewrite <- app_assoc. repeat split; auto.
    + cbn [fst snd map andb]. rewrite app_nil_r.
      repeat split; auto; discriminate.
Qed.

(** With results to plot and the directory made. *)
Lemma generate_plots_files long self w :
  results self <> [] ->
  Py.can_make w "results/figures" = true ->
  let r := generate_plots long self w in
  let domains := unique (map domain (results self)) in
  Py.files (snd r) =
    (Py.files w ++
     map (fun d => (figure_path d, draw (domain_rows long (results self) d)))
         (saved_before_failure (Py.can_save w) domains))%list
  /\ Py.console (snd r) = Py.console w
  /\ Py.dirs (snd r) = (Py.dirs w ++ ["results/figures"])%list
  /\ (fst r = Py.Returns tt <->
      forallb (fun d => Py.can_save w (figure_path d)) domains = true).
Proof.
  intros Hne Hdir. cbv zeta.
  pose (w1 := {| Py.clock := Py.clock w; Py.ticks := Py.ticks w;
                 Py.exec := Py.exec w; Py.console := Py.console w;
                 Py.dirs := (Py.dirs w ++ ["results/figures"])%list;
                 Py.files := Py.files w;
                 Py.can_make := Py.can_make w;
                 Py.can_save := Py.can_save w |}).
  assert (Hstep :
    generate_plots long self w
    = Py.for_each (unique (map domain (results self)))
        (fun d => Py.plt_savefig (figure_path d)
                    (draw (domain_rows long (results self) d))) w1).
  { unfold generate_plots.
    destruct (results self) as [|r0 df]; [congruence|].
    cbv zeta. unfold Py.bind, Py.os_makedirs. now rewrite Hdir. }
  rewrite Hstep.
  exact (for_each_savefig
           (fun d => draw (domain_rows long (results self) d))
           (unique (map domain (results self))) w1).
Qed.

(** With results to plot and no directory. *)
Lemma generate_plots_no_directory long self w :
  results self <> [] ->
  Py.can_make w "results/figures" = false ->
  generate_plots long self w = (Py.Raises (Py.OSError "results/figures"), w).
Proof.
  intros Hne Hdir. unfold generate_plots.
  destruct (results self) as [|r0 df] eqn:E; [congruence|].
  cbv zeta. unfold Py.bind at 1. unfold Py.os_makedirs at 1.
  now rewrite Hdir.
Qed.

(** Whatever happens, a figure that [generate_plots] adds is the figure
    of a domain of the results, under that domain's path. *)
Lemma generate_plots_new_figure long self w path fig :
  In (path, fig) (Py.files (snd (generate_plots long self w))) ->
  ~ In (path, fig) (Py.files w) ->
  exists d,
    In d (map domain (results self))
    /\ path = figure_path d
    /\ fig = draw (domain_rows long (results self) d).
Proof.
  intros Hin Hnew.
  assert (Hres : results self = [] \/ results self <> [])
    by (destruct (results self); [left | right]; congruence).
  destruct Hres as [E|Hne].
  - unfold generate_plots in Hin. rewrite E in Hin. cbn in Hin.
    contradiction.
  - destruct (Py.can_make w "results/figures") eqn:Hdir.
    + destruct (generate_plots_files long self w Hne Hdir) as (F & _).
      cbv zeta in F. rewrite F in Hin.
      apply in_app_or in Hin. destruct Hin as [Hin|Hin]; [contradiction|].
      apply in_map_iff in Hin. destruct Hin as (d & Hd & Hdom).
      injection Hd as <- <-. exists d.
      apply saved_before_failure_In in Hdom. destruct Hdom as [Hdom _].
      rewrite unique_In in Hdom. repeat split; auto.
    + rewrite (generate_plots_no_directory long self w Hne Hdir) in Hin.
      contradiction.
Qed.

(** When [generate_plots] returns, every domain of the results has its
    figure among those added. *)
Lemma generate_plots_returns long self w :
  fst (generate_plots long self w) = Py.Returns tt ->
  exists saved,
    Py.files (snd (generate_plots long self w)) = (Py.files w ++ saved)%list
    /\ saved =
         map (fun d =>
                (figure_path d, draw (domain_rows long (results self) d)))
             (unique (map domain (results self))).
Proof.
  intros R. eexists. split; [|reflexivity].
  assert (Hres : results self = [] \/ results self <> [])
    by (destruct (results self); [left | right]; congruence).
  destruct Hres as [E|Hne].
  - unfold generate_plots. rewrite E. cbn. now rewrite app_nil_r.
  - destruct (Py.can_make w "results/figures") eqn:Hdir.
    + destruct (generate_plots_files long self w Hne Hdir) as (F & _ & _ & T).
      cbv zeta in F, T. rewrite F.
      apply T in R. now rewrite (saved_before_failure_all _ _ R).
    + rewrite (generate_plots_no_directory long self w Hne Hdir) in R.
      discriminate.
Qed.

Lemma length_or_inf_cases l :
  length_or_inf l = Plot.PosInf
  \/ (0 < l /\ length_or_inf l = Plot.Finite (inject_Z l)).
Proof.
  unfold length_or_inf.
  destruct (Z.gtb_spec l 0); [right; split; [lia|] | left]; reflexivity.
Qed.

End PlotFacts.

(** * The plots' claims *)

Import PlotFacts.




(** C8.  In the plan-length panel an undetermined plan length, -1, is drawn
    as [float('inf')], which is above every number.  When [generate_plots]
    returns, every record of the results has a place in the saved figure
    of its domain, where the first panel shows its two runtimes; there the
    second panel shows infinity in the line of a planner whose plan length
    is -1, and the plan length itself when it is positive.  No length that
    is not positive is drawn as a number in any figure that is saved. *)
Theorem undetermined_length_is_infinity :
  length_or_inf (-1) = Plot.PosInf
  /\ (forall q, Plot.ylt (Plot.Finite q) (length_or_inf (-1)))
  /\ (forall long self w path fig line y,
        In (path, fig) (Py.files (snd (generate_plots long self w))) ->
        ~ In (path, fig) (Py.files w) ->
        In line (Plot.length_panel fig) -> In y (Plot.ys line) ->
        y = Plot.PosInf \/ exists l, 0 < l /\ y = Plot.Finite (inject_Z l))
  /\ (forall long self w r,
        sorts_long_arrays long ->
        fst (generate_plots long self w) = Py.Returns tt ->
        In r (results self) ->
        exists saved fig i hsp mcts hsp_length mcts_length,
          Py.files (snd (generate_plots long self w))
          = (Py.files w ++ saved)%list
          /\ In (figure_path (domain r), fig) saved
          /\ Plot.runtime_panel fig = [hsp; mcts]
          /\ Plot.length_panel fig = [hsp_length; mcts_length]
          /\ Plot.label hsp_length = "HSP"
          /\ Plot.label mcts_length = "MCTS"
          /\ nth_error (Plot.ys hsp) i = Some (Plot.Finite (hsp_runtime r))
          /\ nth_error (Plot.ys mcts) i = Some (Plot.Finite (mcts_runtime r))
          /\ (hsp_plan_length r = -1 ->
              nth_error (Plot.ys hsp_length) i = Some Plot.PosInf)
          /\ (mcts_plan_length r = -1 ->
              nth_error (Plot.ys mcts_length) i = Some Plot.PosInf)
          /\ (0 < hsp_plan_length r ->
              nth_error (Plot.ys hsp_length) i
              = Some (Plot.Finite (inject_Z (hsp_plan_length r))))
          /\ (0 < mcts_plan_length r ->
              nth_error (Plot.ys mcts_length) i
              = Some (Plot.Finite (inject_Z (mcts_plan_length r))))).
Proof.
  split; [reflexivity|]. split; [intros q; exact I|]. split.
  - intros long self w path fig line y Hin Hnew Hline Hy.
    destruct (generate_plots_new_figure long self w path fig Hin Hnew)
      as (d & _ & _ & ->).
    cbn [draw Plot.length_panel] in Hline.
    destruct Hline as [<-|[<-|[]]]; cbn [Plot.ys] in Hy;
      apply in_map_iff in Hy; destruct Hy as (l & <- & _);
      (destruct (length_or_inf_cases l) as [->|[Hl ->]];
       [now left | right; now exists l]).
  - intros long self w r Hlong R Hr.
    destruct (generate_plots_returns long self w R) as (saved & F & Hsaved).
    assert (Hrow : In r (domain_rows long (results self) (domain r))).
    { apply (Permutation_in r (sort_perm _ (sort_values_sorts long Hlong) _)).
      apply filter_In. split; [exact Hr | apply String.eqb_refl]. }
    apply In_nth_error in Hrow. destruct Hrow as (i & Hi).
    exists saved, (draw (domain_rows long (results self) (domain r))), i.
    do 4 eexists.
    split; [exact F|]. split.
    { rewrite Hsaved. apply in_map_iff. exists (domain r).
      split; [reflexivity|]. apply unique_In, in_map, Hr. }
    cbn [draw Plot.runtime_panel Plot.length_panel].
    do 4 (split; [reflexivity|]). cbn [Plot.ys].
    rewrite !map_map.
    rewrite !(map_nth_error _ i _ Hi).
    repeat split; try reflexivity.
    + now intros ->.
    + now intros ->.
    + intros Hl. unfold length_or_inf.
      destruct (Z.gtb_spec (hsp_plan_length r) 0); [reflexivity | lia].
    + intros Hl. unfold length_or_inf.
      destruct (Z.gtb_spec (mcts_plan_length r) 0); [reflexivity | lia].
Qed.

Lemma undetermined_length_is_infinity_witness :
  exists saved fig i hsp mcts hsp_length mcts_length,
    Py.files (snd (generate_plots insertion_argsort three_records
                     quiet_world))
    = (Py.files quiet_world ++ saved)%list
    /\ In (figure_path "blocksworld", fig) saved
    /\ Plot.runtime_panel fig = [hsp; mcts]
    /\ Plot.length_panel fig = [hsp_length; mcts_length]
    /\ Plot.label hsp_length = "HSP"
    /\ Plot.label mcts_length = "MCTS"
    /\ nth_error (Plot.ys hsp) i = Some (Plot.Finite 5)
    /\ nth_error (Plot.ys mcts) i = Some (Plot.Finite 2)
    /\ (4 = -1 -> nth_error (Plot.ys hsp_length) i = Some Plot.PosInf)
    /\ (-1 = -1 -> nth_error (Plot.ys mcts_length) i = Some Plot.PosInf)
    /\ (0 < 4 ->
        nth_error (Plot.ys hsp_length) i = Some (Plot.Finite (inject_Z 4)))
    /\ (0 < -1 ->
        nth_error (Plot.ys mcts_length) i
        = Some (Plot.Finite (inject_Z (-1)))).
Proof.
  apply (proj2 (proj2 (proj2 undetermined_length_is_infinity))
           insertion_argsort three_records quiet_world
           (blocksworld_row "p01" 5 2) insertion_argsort_sorts).
  - reflexivity.
  - left. reflexivity.
Defined.

(** C9.  With no results [generate_plots] prints "No results to plot" and
    returns: it raises nothing, saves no figure and makes no directory. *)
Theorem no_results_no_plots (long : list Q -> list nat) (self : instance)
    (w : Py.World) :
  results self = [] ->
  let r := generate_plots long self w in
  fst r = Py.Returns tt
  /\ Py.console (snd r) = (Py.console w ++ ["No results to plot"])%list
  /\ Py.files (snd r) = Py.files w
  /\ Py.dirs (snd r) = Py.dirs w.
Proof.
  intros E. unfold generate_plots. rewrite E. cbn. auto.
Qed.

Lemma no_results_no_plots_witness :
  let r := generate_plots insertion_argsort (init "pddl4j.jar" None)
             quiet_world in
  fst r = Py.Returns tt
  /\ Py.console (snd r) = ["No results to plot"]
  /\ Py.files (snd r) = []
  /\ Py.dirs (snd r) = [].
Proof.
  exact (no_results_no_plots insertion_argsort (init "pddl4j.jar" None)
           quiet_world eq_refl).
Defined.

(** * Further properties of the extractor *)

Module PhraseFacts.

Import Text Re TextFacts ReFacts ExtractFacts Notions.

Lemma match_here_lit_only M g : forall s,
  match_here (lit M) g (M ++ s) = Some g.
Proof.
  induction M as [|c M IH]; intros s; [reflexivity|].
  simpl. now rewrite Ascii.eqb_refl.
Qed.

(** A literal that matches in front of a character it does not hold lies
    wholly before that character. *)
Lemma lit_fits c0 R' g r : forall M s,
  contains c0 M = false ->
  match_here (lit M) g (s ++ String c0 R') = Some r ->
  match_here (lit M) g s = Some r.
Proof.
  induction M as [|x M IH]; intros s Hc H; [exact H|].
  simpl in Hc. apply orb_false_iff in Hc. destruct Hc as [Hx Hc].
  destruct s as [|y s]; simpl in H |- *.
  - rewrite Ascii.eqb_sym, Hx in H. discriminate.
  - destruct (Ascii.eqb y x); [now apply IH | discriminate].
Qed.

(** The number and the suffix of a phrase do not run into a following
    character that the suffix does not hold, when that character is no
    digit or the text before it is not all digits. *)
Lemma digits_then_lit_fits M c0 R' :
  contains c0 M = false ->
  forall s taken r,
    isdigit c0 = false \/ all_chars isdigit s = false ->
    repeat_greedy ClassD (fun taken rest => match_here (lit M) taken rest)
                  taken (s ++ String c0 R') = Some r ->
    repeat_greedy ClassD (fun taken rest => match_here (lit M) taken rest)
                  taken s <> None.
Proof.
  intros Hc. induction s as [|c s IH]; intros taken r Hor H.
  - destruct Hor as [Hd|Hd]; [|discriminate].
    simpl in H. rewrite Hd in H. simpl.
    rewrite (lit_fits c0 R' taken r M "" Hc H). discriminate.
  - simpl append in H. cbn [repeat_greedy class_matches] in *.
    destruct (isdigit c) eqn:Ec.
    + destruct (repeat_greedy ClassD _ (taken ++ String c "")
                  (s ++ String c0 R')) eqn:E.
      * apply IH in E.
        -- destruct (repeat_greedy ClassD _ (taken ++ String c "") s);
             [discriminate | congruence].
        -- destruct Hor as [Hd|Hd]; [now left | right].
           simpl in Hd. now rewrite Ec in Hd.
      * destruct (repeat_greedy ClassD _ (taken ++ String c "") s);
          [discriminate|].
        rewrite (lit_fits c0 R' taken r M (String c s) Hc H). discriminate.
    + rewrite (lit_fits c0 R' taken r M (String c s) Hc H). discriminate.
Qed.

Lemma phrase_here L M ds post :
  all_chars isdigit ds = true -> ds <> "" ->
  stops isdigit M = true -> M <> "" ->
  match_here (phrase L M) "" (L ++ ds ++ M ++ post) = Some ds.
Proof.
  intros Hds Hne HM HMne. unfold phrase. rewrite match_here_lit.
  destruct ds as [|d ds]; [congruence|].
  simpl in Hds. apply andb_true_iff in Hds. destruct Hds as [Hd Hds].
  cbn [app match_here append class_matches]. rewrite Hd.
  apply (repeat_greedy_stop ClassD _ ds (String d "") (M ++ post)).
  - exact Hds.
  - destruct M as [|m M]; [congruence | exact HM].
  - apply match_here_lit_only.
Qed.

(** A phrase with a keyword: no match in [pre] means no match that begins
    in [pre] and runs into a following occurrence of the keyword. *)
Lemma phrase_no_straddle c0 L M R' pre :
  contains c0 L = false -> contains c0 M = false -> isdigit c0 = false ->
  search (phrase (String c0 L) M) pre = None ->
  forall pre1 pre2, pre = pre1 ++ pre2 -> pre2 <> "" ->
    match_here (phrase (String c0 L) M) "" (pre2 ++ String c0 R') = None.
Proof.
  intros HL HM Hd Hnone pre1 pre2 -> Hne.
  apply search_none_suffix in Hnone.
  destruct (match_here _ "" (pre2 ++ String c0 R')) as [r|] eqn:E;
    [|reflexivity].
  exfalso. destruct pre2 as [|y s]; [congruence|].
  unfold phrase in *. simpl in E, Hnone.
  destruct (Ascii.eqb y c0); [|discriminate].
  destruct (lit_straddle _ _ _ _ _ _ _ HL E) as [s2 ->].
  rewrite append_assoc, match_here_lit in E.
  rewrite match_here_lit in Hnone.
  cbn [app match_here class_matches] in E, Hnone.
  destruct s2 as [|c s2]; cbn [append] in E.
  - rewrite Hd in E. discriminate.
  - destruct (isdigit c); [|discriminate].
    apply (digits_then_lit_fits M c0 R' HM) in E; [|now left].
    apply E. exact Hnone.
Qed.

Lemma search_phrase c0 L M pre ds post :
  contains c0 L = false -> contains c0 M = false -> isdigit c0 = false ->
  stops isdigit M = true -> M <> "" ->
  search (phrase (String c0 L) M) pre = None ->
  all_chars isdigit ds = true -> ds <> "" ->
  search (phrase (String c0 L) M) (pre ++ String c0 L ++ ds ++ M ++ post)
  = Some ds.
Proof.
  intros HL HM Hd HMs HMne Hnone Hds Hne.
  change (String c0 L ++ ds ++ M ++ post)
    with (String c0 (L ++ ds ++ M ++ post)).
  rewrite search_skip.
  - apply search_here. now apply (phrase_here (String c0 L)).
  - now apply phrase_no_straddle.
Qed.

Lemma ends_with_suffix f : forall pre1 pre2,
  pre2 <> "" -> ends_with f (pre1 ++ pre2) = ends_with f pre2.
Proof.
  induction pre1 as [|c pre1 IH]; intros pre2 Hne; [reflexivity|].
  simpl append. cbn [ends_with]. rewrite IH by exact Hne.
  destruct (pre1 ++ pre2) eqn:E; [|reflexivity].
  destruct pre1; simpl in E; [congruence | discriminate].
Qed.

Lemma ends_with_all f : forall s,
  s <> "" -> all_chars f s = true -> ends_with f s = true.
Proof.
  induction s as [|c s IH]; intros Hne Hall; [congruence|].
  simpl in Hall. apply andb_true_iff in Hall. destruct Hall as [Hc Hs].
  destruct s as [|c' s]; [exact Hc|].
  cbn [ends_with]. apply IH; [discriminate | exact Hs].
Qed.

Lemma digit_not_in M d :
  all_chars (fun c => negb (isdigit c)) M = true ->
  isdigit d = true -> contains d M = false.
Proof.
  induction M as [|c M IH]; intros HM Hd; [reflexivity|].
  simpl in *. apply andb_true_iff in HM. destruct HM as [Hc HM].
  rewrite (IH HM Hd), orb_false_r.
  destruct (Ascii.eqb c d) eqn:E; [|reflexivity].
  apply Ascii.eqb_eq in E. subst c. rewrite Hd in Hc. discriminate.
Qed.

(** A phrase without keyword, [(\d+)M]: when [pre] holds no match and does
    not end with a digit, no match begins in [pre] and runs into the digits
    that follow. *)
Lemma number_phrase_no_straddle M d R' pre :
  all_chars (fun c => negb (isdigit c)) M = true ->
  isdigit d = true ->
  ends_with isdigit pre = false ->
  search (phrase "" M) pre = None ->
  forall pre1 pre2, pre = pre1 ++ pre2 -> pre2 <> "" ->
    match_here (phrase "" M) "" (pre2 ++ String d R') = None.
Proof.
  intros HM Hd Hend Hnone pre1 pre2 -> Hne.
  apply search_none_suffix in Hnone.
  rewrite (ends_with_suffix _ pre1 pre2 Hne) in Hend.
  destruct (match_here _ "" (pre2 ++ String d R')) as [r|] eqn:E;
    [|reflexivity].
  exfalso. destruct pre2 as [|y s]; [congruence|].
  unfold phrase in *. cbn [lit app match_here class_matches append] in E, Hnone.
  destruct (isdigit y) eqn:Ey; [|discriminate].
  apply (digits_then_lit_fits M d R' (digit_not_in M d HM Hd)) in E.
  - apply E. exact Hnone.
  - right. destruct (all_chars isdigit s) eqn:Es; [|reflexivity].
    rewrite (ends_with_all isdigit (String y s)) in Hend;
      [discriminate | discriminate |].
    simpl. now rewrite Ey, Es.
Qed.

Lemma search_number_phrase M pre ds post :
  all_chars (fun c => negb (isdigit c)) M = true -> M <> "" ->
  ends_with isdigit pre = false ->
  search (phrase "" M) pre = None ->
  all_chars isdigit ds = true -> ds <> "" ->
  search (phrase "" M) (pre ++ ds ++ M ++ post) = Some ds.
Proof.
  intros HM HMne Hend Hnone Hds Hne.
  assert (HMs : stops isdigit M = true).
  { destruct M as [|m M]; [congruence|].
    simpl in HM. apply andb_true_iff in HM. now destruct HM. }
  destruct ds as [|d ds]; [congruence|].
  change (String d ds ++ M ++ post) with (String d (ds ++ M ++ post)).
  rewrite search_skip.
  - apply search_here.
    now apply (phrase_here "" M (String d ds) post).
  - apply number_phrase_no_straddle; auto.
    simpl in Hds. apply andb_true_iff in Hds. now destruct Hds.
Qed.

End PhraseFacts.

Module LineFacts.

Import Text Re TextFacts ReFacts ExtractFacts Notions.

Lemma startswith_rstrip_eq c s :
  isspace c = false -> startswith c (rstrip s) = startswith c s.
Proof.
  intros Hc. destruct s as [|d s]; [reflexivity|].
  simpl. destruct (rstrip s); [|reflexivity].
  destruct (isspace d) eqn:Ed; [|reflexivity].
  simpl. destruct (Ascii.eqb d c) eqn:E; [|reflexivity].
  apply Ascii.eqb_eq in E. congruence.
Qed.

Lemma lstrip_spaces ws s :
  all_chars isspace ws = true -> lstrip (ws ++ s) = lstrip s.
Proof.
  induction ws as [|c ws IH]; simpl; intros H; [reflexivity|].
  apply andb_true_iff in H. destruct H as [Hc H]. rewrite Hc. now apply IH.
Qed.

Lemma lstrip_all_spaces ws : all_chars isspace ws = true -> lstrip ws = "".
Proof.
  intros H. rewrite <- (append_nil_r ws). now rewrite lstrip_spaces.
Qed.

Lemma startswith_lstrip_app c ws : isspace c = false ->
  all_chars isspace ws = true ->
  forall line,
    startswith c (lstrip (line ++ ws)) = startswith c (lstrip line).
Proof.
  intros Hc Hws. induction line as [|d line IH]; simpl.
  - now rewrite lstrip_all_spaces.
  - destruct (isspace d); [exact IH | reflexivity].
Qed.

Lemma contains_app c a b :
  contains c (a ++ b) = contains c a || contains c b.
Proof.
  induction a as [|d a IH]; simpl; [reflexivity|].
  now rewrite IH, orb_assoc.
Qed.

Lemma contains_spaces c ws :
  isspace c = false -> all_chars isspace ws = true -> contains c ws = false.
Proof.
  intros Hc. induction ws as [|d ws IH]; simpl; intros H; [reflexivity|].
  apply andb_true_iff in H. destruct H as [Hd H]. rewrite (IH H), orb_false_r.
  destruct (Ascii.eqb d c) eqn:E; [|reflexivity].
  apply Ascii.eqb_eq in E. congruence.
Qed.

Lemma split_lines_from_length s : forall cur,
  List.length (split_lines_from cur s) = S (count_char LF s).
Proof.
  induction s as [|c s IH]; intros cur; [reflexivity|].
  cbn [split_lines_from count_char].
  destruct (Ascii.eqb c LF); cbn [List.length]; now rewrite IH.
Qed.

Lemma split_lines_from_app b : forall a cur,
  split_lines_from cur (a ++ String LF b)
  = (split_lines_from cur a ++ split_lines b)%list.
Proof.
  induction a as [|c a IH]; intros cur.
  - reflexivity.
  - simpl append. cbn [split_lines_from].
    destruct (Ascii.eqb c LF); [cbn [app]; f_equal|]; apply IH.
Qed.

Lemma extract_plan_length_lower output : -1 <= extract_plan_length output.
Proof.
  unfold extract_plan_length.
  destruct (first_match patterns output) as [n|] eqn:E.
  - pose proof (first_match_nonneg output patterns n
                  patterns_capture_digits E). lia.
  - cbv zeta. destruct (Z.gtb_spec (Z.of_nat (action_count output)) 0); lia.
Qed.

End LineFacts.

Import PhraseFacts LineFacts Notions.

(** X1.  The two keyword reports, [Plan length:\s*(\d+)] and
    [Steps:\s*(\d+)]: between the keyword and the number any run of
    whitespace may stand, line breaks included, or none; the number is the
    whole run of digits.  For "Steps:" the three patterns listed before it
    must not match the text. *)
Theorem keyword_report_extracted (pre ws ds post : string) :
  all_chars isspace ws = true ->
  all_chars isdigit ds = true -> ds <> "" ->
  stops isdigit post = true ->
  (search (nth 0 patterns []) pre = None ->
   extract_plan_length (pre ++ "Plan length:" ++ ws ++ ds ++ post)
   = Text.int ds)
  /\ (search (nth 3 patterns []) pre = None ->
      (forall j q, (j < 3)%nat -> nth_error patterns j = Some q ->
         search q (pre ++ "Steps:" ++ ws ++ ds ++ post) = None) ->
      extract_plan_length (pre ++ "Steps:" ++ ws ++ ds ++ post)
      = Text.int ds).
Proof.
  intros Hws Hds Hne Hpost. split.
  - intros Hpre. unfold extract_plan_length.
    rewrite (first_match_priority _ patterns 0 (report "Plan length:") ds).
    + reflexivity.
    + reflexivity.
    + now apply (search_report "P" "lan length:" pre ws ds post).
    + intros j q Hj. lia.
  - intros Hpre Hearlier. unfold extract_plan_length.
    rewrite (first_match_priority _ patterns 3 (report "Steps:") ds).
    + reflexivity.
    + reflexivity.
    + now apply (search_report "S" "teps:" pre ws ds post).
    + exact Hearlier.
Qed.

Lemma keyword_report_extracted_witness :
  extract_plan_length
    ("HSP done. " ++ "Plan length:" ++ String LF "  " ++ "012" ++ " steps")
  = 12
  /\ extract_plan_length
       ("Steps " ++ "Steps:" ++ "" ++ "40" ++ ", Steps: 7") = 40.
Proof.
  split.
  - apply (proj1 (keyword_report_extracted "HSP done. " (String LF "  ")
                    "012" " steps" eq_refl eq_refl
                    ltac:(discriminate) eq_refl)).
    reflexivity.
  - apply (proj2 (keyword_report_extracted "Steps " "" "40" ", Steps: 7"
                    eq_refl eq_refl ltac:(discriminate) eq_refl)).
    + reflexivity.
    + intros j q Hj Hq.
      destruct j as [|[|[|j]]]; [| | |lia]; injection Hq as <-; reflexivity.
Defined.

(** X2.  The report "Solution found with N actions": when the first
    pattern matches nowhere in the text and the text before the report
    holds no match of the second, the result is the number N, whatever
    follows. *)
Theorem solution_report_extracted (pre ds post : string) :
  all_chars isdigit ds = true -> ds <> "" ->
  search (nth 1 patterns []) pre = None ->
  search (nth 0 patterns [])
         (pre ++ "Solution found with " ++ ds ++ " actions" ++ post) = None ->
  extract_plan_length
    (pre ++ "Solution found with " ++ ds ++ " actions" ++ post)
  = Text.int ds.
Proof.
  intros Hds Hne Hpre Hfirst. unfold extract_plan_length.
  rewrite (first_match_priority _ patterns 1
             (phrase "Solution found with " " actions") ds).
  - reflexivity.
  - reflexivity.
  - apply (search_phrase "S" "olution found with " " actions" pre ds post);
      auto; try reflexivity. discriminate.
  - intros j q Hj Hq. destruct j as [|j]; [|lia].
    injection Hq as <-. exact Hfirst.
Qed.

Lemma solution_report_extracted_witness :
  extract_plan_length
    ("Solution found with " ++ "Solution found with " ++ "23" ++ " actions"
     ++ " in 4 Steps: 9") = 23.
Proof.
  apply (solution_report_extracted "Solution found with " "23"
           " in 4 Steps: 9"); try reflexivity. discriminate.
Defined.

(** X3.  The report "N actions in the plan": when the first two patterns
    match nowhere in the text, and the text before the number holds no
    match of the third and does not end with a digit, the result is the
    number N, whatever follows. *)
Theorem plan_report_extracted (pre ds post : string) :
  all_chars isdigit ds = true -> ds <> "" ->
  ends_with isdigit pre = false ->
  search (nth 2 patterns []) pre = None ->
  (forall j q, (j < 2)%nat -> nth_error patterns j = Some q ->
     search q (pre ++ ds ++ " actions in the plan" ++ post) = None) ->
  extract_plan_length (pre ++ ds ++ " actions in the plan" ++ post)
  = Text.int ds.
Proof.
  intros Hds Hne Hend Hpre Hearlier. unfold extract_plan_length.
  rewrite (first_match_priority _ patterns 2
             (phrase "" " actions in the plan") ds).
  - reflexivity.
  - reflexivity.
  - apply (search_number_phrase " actions in the plan" pre ds post);
      auto; try reflexivity. discriminate.
  - exact Hearlier.
Qed.

Lemma plan_report_extracted_witness :
  extract_plan_length
    ("3 walks, " ++ "17" ++ " actions in the plan" ++ ", Steps: 2") = 17.
Proof.
  apply (plan_report_extracted "3 walks, " "17" ", Steps: 2");
    try reflexivity; [discriminate|].
  intros j q Hj Hq.
  destruct j as [|[|j]]; [| |lia]; injection Hq as <-; reflexivity.
Defined.

(** X4.  Whether a line counts as an action does not depend on whitespace
    around it: indentation, trailing blanks or a carriage return left by a
    Windows line ending change nothing. *)
Theorem action_line_ignores_margins (ws1 line ws2 : string) :
  all_chars isspace ws1 = true ->
  all_chars isspace ws2 = true ->
  is_action_line (ws1 ++ line ++ ws2) = is_action_line line.
Proof.
  intros H1 H2. unfold is_action_line, strip.
  rewrite !startswith_rstrip_eq by reflexivity.
  rewrite lstrip_spaces by exact H1.
  rewrite startswith_lstrip_app by (reflexivity || exact H2).
  rewrite !contains_app.
  rewrite (contains_spaces ")" ws1), (contains_spaces ")" ws2);
    try reflexivity; try assumption.
  now rewrite orb_false_r.
Qed.

Lemma action_line_ignores_margins_witness :
  is_action_line
    ("  " ++ "(move a b)" ++ String (ascii_of_nat 13) "") = true.
Proof.
  rewrite (action_line_ignores_margins "  " "(move a b)"
             (String (ascii_of_nat 13) "") eq_refl eq_refl).
  reflexivity.
Defined.

(** X5.  When no pattern matches, the result is -1 or lies between 1 and
    the number of lines of the text, which is one more than the number of
    its line feeds; it is never 0. *)
Theorem fallback_bounded_by_lines (output : string) :
  (forall p, In p patterns -> search p output = None) ->
  extract_plan_length output = -1
  \/ 1 <= extract_plan_length output <= Z.of_nat (count_char LF output) + 1.
Proof.
  intros Hnone. apply first_match_none in Hnone.
  rewrite (extract_fallback output Hnone).
  destruct (Nat.ltb_spec 0 (action_count output)) as [L|L]; [right|now left].
  assert (B : (action_count output <= S (count_char LF output))%nat).
  { unfold action_count, split_lines.
    rewrite <- (split_lines_from_length output "").
    apply filter_length_le. }
  lia.
Qed.

Lemma fallback_bounded_by_lines_witness :
  let output := "(a)" ++ String LF "x" ++ String LF "(b)" in
  extract_plan_length output = 2 /\ count_char LF output = 2%nat.
Proof.
  cbv zeta. split; [|reflexivity].
  destruct (fallback_bounded_by_lines
              ("(a)" ++ String LF "x" ++ String LF "(b)")) as [E|_].
  - intros p [<-|[<-|[<-|[<-|[]]]]]; reflexivity.
  - vm_compute in E. discriminate.
  - reflexivity.
Defined.

(** X6.  Action lines add up: the count for two texts joined by a line
    feed is the sum of their counts. *)
Theorem action_count_additive (a b : string) :
  action_count (a ++ String LF b) = (action_count a + action_count b)%nat.
Proof.
  unfold action_count, split_lines.
  now rewrite split_lines_from_app, filter_app, length_app.
Qed.

(** * Further properties of the adapters *)

(** X7.  When the external program cannot be started, neither adapter
    returns an outcome: the error reaches the caller.  Only the timeout is
    caught. *)
Theorem start_failure_is_raised (self : instance) (cmd : list string)
    (run : Py.M RunOutcome) (w : Py.World) (msg : string) :
  adapter_call self cmd run ->
  Py.exec w cmd (timeout self) = Subprocess.CannotStart msg ->
  fst (run w) = Py.Raises (Py.OSError msg).
Proof.
  intros Hcall Hexec.
  now rewrite (adapter_cannot_start self cmd run w msg Hcall Hexec).
Qed.

Lemma start_failure_is_raised_witness :
  let w := world_where (Subprocess.CannotStart "java: not found") in
  fst (run_hsp_planner (init "pddl4j.jar" None) "domain.pddl" "p01.pddl" w)
  = Py.Raises (Py.OSError "java: not found")
  /\ fst (run_mcts_planner (init "pddl4j.jar" None) "domain.pddl" "p01.pddl"
            (Some 10) None w)
     = Py.Raises (Py.OSError "java: not found").
Proof.
  split.
  - apply (start_failure_is_raised (init "pddl4j.jar" None) _ _
             (world_where (Subprocess.CannotStart "java: not found")) _
             (call_hsp _ _ _)).
    reflexivity.
  - apply (start_failure_is_raised (init "pddl4j.jar" None) _ _
             (world_where (Subprocess.CannotStart "java: not found")) _
             (call_mcts _ _ _ _ _)).
    reflexivity.
Defined.

(** X8.  An adapter prints nothing, makes no directory and saves no
    figure, whatever [subprocess.run] does.  It reads the clock twice when
    [subprocess.run] returns a completed process, and once when it raises:
    on a timeout, when the program cannot be started, when its output
    cannot be decoded, when the command line is refused. *)
Theorem adapter_leaves_no_trace (self : instance) (cmd : list string)
    (run : Py.M RunOutcome) (w : Py.World) :
  adapter_call self cmd run ->
  let w' := snd (run w) in
  Py.console w' = Py.console w
  /\ Py.dirs w' = Py.dirs w
  /\ Py.files w' = Py.files w
  /\ Py.ticks w' =
       match Py.exec w cmd (timeout self) with
       | Subprocess.Exits _ => (Py.ticks w + 2)%nat
       | _ => (Py.ticks w + 1)%nat
       end.
Proof.
  intros Hcall. cbv zeta.
  destruct (Py.exec w cmd (timeout self)) as [p| |msg| |msg] eqn:E.
  - rewrite (adapter_exits self cmd run w p Hcall E).
    cbn. repeat split; auto. lia.
  - rewrite (adapter_times_out self cmd run w Hcall E).
    cbn. repeat split; auto. lia.
  - rewrite (adapter_cannot_start self cmd run w msg Hcall E).
    cbn. repeat split; auto. lia.
  - rewrite (adapter_undecodable self cmd run w Hcall E).
    cbn. repeat split; auto. lia.
  - rewrite (adapter_refused self cmd run w msg Hcall E).
    cbn. repeat split; auto. lia.
Qed.

Lemma adapter_leaves_no_trace_witness :
  let w' :=
    snd (run_hsp_planner (init "pddl4j.jar" None) "domain.pddl" "p01.pddl"
           (world_where Subprocess.TimesOut)) in
  Py.console w' = [] /\ Py.dirs w' = [] /\ Py.files w' = []
  /\ Py.ticks w' = 1%nat.
Proof.
  exact (adapter_leaves_no_trace (init "pddl4j.jar" None) _ _
           (world_where Subprocess.TimesOut) (call_hsp _ _ _)).
Defined.

(** X9.  The two adapters differ only in the command they start: when the
    two commands behave alike, the two adapters give the same result. *)
Theorem adapters_agree (self : instance) (w : Py.World)
    (domain_file problem_file domain_file' problem_file' : string)
    (walks length : option Z) :
  Py.exec w (hsp_cmd self domain_file problem_file) (timeout self)
  = Py.exec w (mcts_cmd self domain_file' problem_file'
                 (or_default walks 1000) (or_default length 100))
            (timeout self) ->
  run_hsp_planner self domain_file problem_file w
  = run_mcts_planner self domain_file' problem_file' walks length w.
Proof.
  intros H.
  pose proof (call_hsp self domain_file problem_file) as Ch.
  pose proof (call_mcts self domain_file' problem_file' walks length) as Cm.
  destruct (Py.exec w (hsp_cmd self domain_file problem_file) (timeout self))
    as [p| |msg| |msg] eqn:E; symmetry in H.
  - now rewrite (adapter_exits _ _ _ w p Ch E), (adapter_exits _ _ _ w p Cm H).
  - now rewrite (adapter_times_out _ _ _ w Ch E),
      (adapter_times_out _ _ _ w Cm H).
  - now rewrite (adapter_cannot_start _ _ _ w msg Ch E),
      (adapter_cannot_start _ _ _ w msg Cm H).
  - now rewrite (adapter_undecodable _ _ _ w Ch E),
      (adapter_undecodable _ _ _ w Cm H).
  - now rewrite (adapter_refused _ _ _ w msg Ch E),
      (adapter_refused _ _ _ w msg Cm H).
Qed.

Lemma adapters_agree_witness :
  let p := {| Subprocess.returncode := 1;
              Subprocess.stdout := "Plan length: 4";
              Subprocess.stderr := "killed" |} in
  let w := world_where (Subprocess.Exits p) in
  run_hsp_planner (init "pddl4j.jar" None) "domain.pddl" "p01.pddl" w
  = run_mcts_planner (init "pddl4j.jar" None) "domain.pddl" "p02.pddl"
      None None w.
Proof.
  cbv zeta. apply adapters_agree. reflexivity.
Defined.

(** X10.  The plan length of every outcome an adapter returns is -1 or a
    natural number. *)
Theorem outcome_plan_length_range (self : instance) (cmd : list string)
    (run : Py.M RunOutcome) (w : Py.World) (out : RunOutcome) :
  adapter_call self cmd run ->
  fst (run w) = Py.Returns out ->
  -1 <= plan_length out.
Proof.
  intros Hcall Hout.
  destruct (Py.exec w cmd (timeout self)) as [p| |msg| |msg] eqn:E.
  - rewrite (adapter_exits self cmd run w p Hcall E) in Hout.
    injection Hout as <-. apply extract_plan_length_lower.
  - rewrite (adapter_times_out self cmd run w Hcall E) in Hout.
    injection Hout as <-. cbn. lia.
  - rewrite (adapter_cannot_start self cmd run w msg Hcall E) in Hout.
    discriminate.
  - rewrite (adapter_undecodable self cmd run w Hcall E) in Hout.
    discriminate.
  - rewrite (adapter_refused self cmd run w msg Hcall E) in Hout.
    discriminate.
Qed.

Lemma outcome_plan_length_range_witness :
  -1 <= plan_length (timeout_outcome (init "pddl4j.jar" None)).
Proof.
  apply (outcome_plan_length_range (init "pddl4j.jar" None) _ _
           (world_where Subprocess.TimesOut) _ (call_hsp _ "d" "p")).
  reflexivity.
Defined.

(** X11.  On a normal exit the runtime is the second reading of the clock
    minus the first.  [time.time()] may step back between the two; the
    runtime is non-negative exactly when it did not. *)
Theorem runtime_is_elapsed_time (self : instance) (cmd : list string)
    (run : Py.M RunOutcome) (w : Py.World) (p : Subprocess.CompletedProcess)
    (out : RunOutcome) :
  adapter_call self cmd run ->
  Py.exec w cmd (timeout self) = Subprocess.Exits p ->
  fst (run w) = Py.Returns out ->
  runtime out = (Py.clock w (S (Py.ticks w)) - Py.clock w (Py.ticks w))%Q
  /\ ((0 <= runtime out)%Q <->
      (Py.clock w (Py.ticks w) <= Py.clock w (S (Py.ticks w)))%Q).
Proof.
  intros Hcall Hexec Hout.
  rewrite (adapter_exits self cmd run w p Hcall Hexec) in Hout.
  injection Hout as <-. cbn [runtime]. split; [reflexivity|].
  rewrite (Qle_minus_iff (Py.clock w (Py.ticks w))). reflexivity.
Qed.

Lemma runtime_is_elapsed_time_witness :
  let out := {| success := true; runtime := (9 # 1) - (10 # 1);
                plan_length := 2; stdout := "Steps: 2"; stderr := "" |} in
  fst (run_hsp_planner (init "pddl4j.jar" None) "d" "p" clock_steps_back)
  = Py.Returns out
  /\ runtime out = (Py.clock clock_steps_back 1 - Py.clock clock_steps_back 0)%Q
  /\ ~ (0 <= runtime out)%Q.
Proof.
  cbv zeta. split; [reflexivity|].
  destruct (runtime_is_elapsed_time (init "pddl4j.jar" None) _ _
              clock_steps_back
              {| Subprocess.returncode := 0; Subprocess.stdout := "Steps: 2";
                 Subprocess.stderr := "" |}
              {| success := true; runtime := (9 # 1) - (10 # 1);
                 plan_length := 2; stdout := "Steps: 2"; stderr := "" |}
              (call_hsp _ "d" "p") eq_refl eq_refl) as [E I].
  split; [exact E|].
  intros H. apply I in H. vm_compute in H. now apply H.
Defined.

(** * Further properties of the plots *)

Module GroupFacts.

Import TextFacts PlotFacts.





Lemma filter_all {A} (f : A -> bool) : forall l,
  (forall x, In x l -> f x = true) -> filter f l = l.
Proof.
  induction l as [|x l IH]; intros H; [reflexivity|].
  simpl. rewrite (H x) by now left. f_equal. apply IH.
  intros y Hy. apply H. now right.
Qed.

Lemma filter_none {A} (l : list A) : filter (fun _ => false) l = [].
Proof. induction l; auto. Qed.

Lemma filter_disjoint {A} (f g : A -> bool) :
  (forall x, f x = true -> g x = false) ->
  forall l,
    Permutation (filter f l ++ filter g l) (filter (fun x => f x || g x) l).
Proof.
  intros Hfg. induction l as [|x l IH]; [reflexivity|].
  simpl. destruct (f x) eqn:Ef.
  - rewrite (Hfg x Ef). simpl. now apply perm_skip.
  - destruct (g x); simpl; [|exact IH].
    rewrite <- Permutation_middle. now apply perm_skip.
Qed.

(** The rows of the domains [ds], taken domain by domain, are the rows
    whose domain is in [ds]. *)
Lemma rows_of_domains df : forall ds,
  NoDup ds ->
  Permutation (List.concat (map (rows_of df) ds))
              (filter (fun r => existsb (String.eqb (domain r)) ds) df).
Proof.
  induction 1 as [|d ds Hd Hds IH]; simpl.
  - now rewrite filter_none.
  - rewrite IH. apply filter_disjoint.
    intros r Hr. apply String.eqb_eq in Hr.
    destruct (existsb (String.eqb (domain r)) ds) eqn:E; [|reflexivity].
    apply existsb_exists in E. destruct E as (d' & Hd' & E).
    apply String.eqb_eq in E. congruence.
Qed.

Lemma concat_perm {A B} (f g : A -> list B) :
  (forall x, Permutation (f x) (g x)) ->
  forall l, Permutation (List.concat (map f l)) (List.concat (map g l)).
Proof.
  intros H. induction l as [|x l IH]; simpl; [reflexivity|].
  now apply Permutation_app.
Qed.

(** The rows drawn for the distinct domains, put together, are the
    records rearranged. *)
Lemma rows_partition long df :
  sorts_long_arrays long ->
  Permutation
    (List.concat (map (domain_rows long df) (unique (map domain df)))) df.
Proof.
  intros Hlong.
  rewrite (concat_perm (domain_rows long df) (rows_of df)).
  - rewrite (rows_of_domains df _ (unique_NoDup _)).
    rewrite filter_all; [reflexivity|].
    intros r Hr. apply existsb_exists. exists (domain r).
    split; [|apply String.eqb_refl].
    apply unique_In, in_map, Hr.
  - intros d. symmetry.
    apply (sort_perm _ (sort_values_sorts long Hlong)).
Qed.

Lemma points_draw : forall rows, points (draw rows) = map point_of rows.
Proof.
  intros rows. unfold points, draw.
  cbn [Plot.runtime_panel Plot.length_panel Plot.ys].
  induction rows as [|r rows IH]; [reflexivity|].
  cbn [map combine] in *. now rewrite IH.
Qed.

End GroupFacts.

Import GroupFacts.



(** X13.  When [generate_plots] returns it has drawn every record once:
    the points of the figures it saved, put together, are the points of
    the records of [self.results] rearranged, and the points of each saved
    figure are those of the records of one domain. *)
Theorem every_record_is_drawn_once (long : list Q -> list nat)
    (self : instance) (w : Py.World) :
  sorts_long_arrays long ->
  fst (generate_plots long self w) = Py.Returns tt ->
  exists saved,
    Py.files (snd (generate_plots long self w)) = (Py.files w ++ saved)%list
    /\ Permutation (List.concat (map (fun pf => points (snd pf)) saved))
                   (map point_of (results self))
    /\ (forall path fig, In (path, fig) saved ->
          exists d,
            path = figure_path d
            /\ Permutation (points fig)
                           (map point_of (rows_of (results self) d))).
Proof.
  intros Hlong R.
  destruct (generate_plots_returns long self w R) as (saved & F & ->).
  eexists. split; [exact F|]. split.
  - rewrite map_map. cbn [snd].
    rewrite (map_ext _ (fun d => map point_of
                                   (domain_rows long (results self) d)))
      by (intros d; apply points_draw).
    rewrite <- map_map, <- concat_map.
    apply Permutation_map, rows_partition, Hlong.
  - intros path fig Hin. apply in_map_iff in Hin.
    destruct Hin as (d & Hd & _). injection Hd as <- <-.
    exists d. split; [reflexivity|].
    rewrite points_draw. apply Permutation_map. symmetry.
    apply (sort_perm _ (sort_values_sorts long Hlong)).
Qed.

Lemma every_record_is_drawn_once_witness :
  exists saved,
    Py.files (snd (generate_plots insertion_argsort four_records
                     quiet_world))
    = (Py.files quiet_world ++ saved)%list
    /\ Permutation (List.concat (map (fun pf => points (snd pf)) saved))
                   (map point_of (results four_records))
    /\ (forall path fig, In (path, fig) saved ->
          exists d,
            path = figure_path d
            /\ Permutation (points fig)
                           (map point_of (rows_of (results four_records) d))).
Proof.
  exact (every_record_is_drawn_once insertion_argsort four_records
           quiet_world insertion_argsort_sorts eq_refl).
Defined.

(** X14.  Every figure [generate_plots] saves is well formed: for some
    [n >= 1] each of its four lines runs over the abscissas 0 to [n - 1]
    and has [n] ordinates.  No figure is empty. *)
Theorem saved_figures_are_well_formed (long : list Q -> list nat)
    (self : instance) (w : Py.World) (path : string) (fig : Plot.Figure) :
  sorts_long_arrays long ->
  In (path, fig) (Py.files (snd (generate_plots long self w))) ->
  ~ In (path, fig) (Py.files w) ->
  exists n,
    (1 <= n)%nat
    /\ Forall (line_over n) (Plot.runtime_panel fig)
    /\ Forall (line_over n) (Plot.length_panel fig).
Proof.
  intros Hlong Hin Hnew.
  destruct (generate_plots_new_figure long self w path fig Hin Hnew)
    as (d & Hdom & _ & ->).
  exists (List.length (domain_rows long (results self) d)). split.
  - apply in_map_iff in Hdom. destruct Hdom as (r & Hr & Hres).
    assert (Hrow : In r (domain_rows long (results self) d)).
    { apply (Permutation_in r (sort_perm _ (sort_values_sorts long Hlong) _)).
      apply filter_In. split; [exact Hres | now apply String.eqb_eq]. }
    destruct (domain_rows long (results self) d); [contradiction|].
    simpl. lia.
  - unfold draw, line_over. cbn [Plot.runtime_panel Plot.length_panel].
    split; repeat constructor; cbn [Plot.xs Plot.ys];
      now rewrite !length_map.
Qed.

Lemma saved_figures_are_well_formed_witness :
  exists n,
    (1 <= n)%nat
    /\ Forall (line_over n)
         (Plot.runtime_panel
            (draw (domain_rows insertion_argsort (results three_records)
                     "blocksworld")))
    /\ Forall (line_over n)
         (Plot.length_panel
            (draw (domain_rows insertion_argsort (results three_records)
                     "blocksworld"))).
Proof.
  apply (saved_figures_are_well_formed insertion_argsort three_records
           quiet_world "results/figures/blocksworld_comparison.png"
           (draw (domain_rows insertion_argsort (results three_records)
                    "blocksworld"))
           insertion_argsort_sorts).
  - left. reflexivity.
  - intros [].
Defined.

(** * Properties of the script *)

(** X15.  Whatever the arguments, [main] starts no planner: the instance it
    builds has no results, so the results file holds the empty list "[]",
    no figure is saved and no directory made, the clock is not read, and
    three lines are printed, in this order: "Results saved to
    benchmark_results.json", "No results to plot", "Benchmark
    completed!". *)
Theorem main_runs_no_benchmark (long : list Q -> list nat)
    (json_entry : Row -> string) (args : Args.Namespace)
    (w : Py.World) (d : Script.Disk) :
  Script.writable d "benchmark_results.json" = true ->
  let r := Script.main long json_entry args (w, d) in
  fst r = Py.Returns tt
  /\ Py.console (fst (snd r)) =
       (Py.console w ++ [ "Results saved to benchmark_results.json";
                          "No results to plot";
                          "Benchmark completed!" ])%list
  /\ Script.written (snd (snd r)) =
       (Script.written d ++ [("benchmark_results.json", "[]")])%list
  /\ Py.files (fst (snd r)) = Py.files w
  /\ Py.dirs (fst (snd r)) = Py.dirs w
  /\ Py.ticks (fst (snd r)) = Py.ticks w.
Proof.
  intros Hw. cbv zeta.
  unfold Script.main, Script.save_results, Script.bind, Script.write_text,
    Script.lift.
  cbn [fst snd]. rewrite Hw.
  cbn. rewrite <- !app_assoc. repeat split; reflexivity.
Qed.

Lemma main_runs_no_benchmark_witness :
  let args := {| Args.pddl4j_path := "pddl4j.jar";
                 Args.domains_path := "pddl"; Args.timeout := 300 |} in
  let r := Script.main insertion_argsort (fun _ => "{}") args
             (quiet_world, blank_disk) in
  fst r = Py.Returns tt
  /\ Py.console (fst (snd r)) =
       [ "Results saved to benchmark_results.json";
         "No results to plot";
         "Benchmark completed!" ]
  /\ Script.written (snd (snd r)) = [("benchmark_results.json", "[]")]
  /\ Py.files (fst (snd r)) = []
  /\ Py.dirs (fst (snd r)) = []
  /\ Py.ticks (fst (snd r)) = 0%nat.
Proof.
  exact (main_runs_no_benchmark insertion_argsort (fun _ => "{}")
           {| Args.pddl4j_path := "pddl4j.jar";
              Args.domains_path := "pddl"; Args.timeout := 300 |}
           quiet_world blank_disk eq_refl).
Defined.

(** X16.  When the results file cannot be opened for writing,
    [save_results] raises before it prints, and nothing is written; [main]
    then stops there: it plots nothing and prints nothing, not even its
    closing line. *)
Theorem unwritable_results_file_stops_the_script
    (long : list Q -> list nat) (json_entry : Row -> string)
    (w : Py.World) (d : Script.Disk) :
  (forall self filename name,
     name = match filename with
            | Some f => f
            | None => "benchmark_results.json"
            end ->
     Script.writable d name = false ->
     Script.save_results json_entry self filename (w, d)
     = (Py.Raises (Py.OSError name), (w, d)))
  /\ (forall args,
        Script.writable d "benchmark_results.json" = false ->
        Script.main long json_entry args (w, d)
        = (Py.Raises (Py.OSError "benchmark_results.json"), (w, d))).
Proof.
  split.
  - intros self filename name -> Hw.
    unfold Script.save_results, Script.bind, Script.write_text.
    cbn [fst snd]. now rewrite Hw.
  - intros args Hw.
    unfold Script.main, Script.save_results, Script.bind, Script.write_text.
    cbn [fst snd]. now rewrite Hw.
Qed.

Lemma unwritable_results_file_stops_the_script_witness :
  Script.main insertion_argsort (fun _ => "{}")
    {| Args.pddl4j_path := "pddl4j.jar"; Args.domains_path := "pddl";
       Args.timeout := 300 |}
    (quiet_world, locked_disk)
  = (Py.Raises (Py.OSError "benchmark_results.json"),
     (quiet_world, locked_disk)).
Proof.
  apply (proj2 (unwritable_results_file_stops_the_script insertion_argsort
                  (fun _ => "{}") quiet_world locked_disk)).
  reflexivity.
Defined.
